(** * OpenKimi core: entropy scoring, chunking, memory store, compressor

    A shallow embedding of the Python modules under [openkimi/core]
    ([entropy.py], [processor.py], [rag.py], [framework.py], [engine.py])
    and of the test doubles of [openkimi/utils/llm_interface.py].

    Conventions.
    - A Python call that can raise is a function into [result]; a loop that
      is not structurally bounded takes fuel and answers [None] when the fuel
      is used up before the loop has finished.
    - Python [str] is [string], a sequence of bytes: [lower], [split] and
      [strip] act on ASCII, and lengths and prefixes count bytes, which is
      the source's behaviour on ASCII text. [int] is [Z]; a [dict] given by
      the caller is a [gmap]; a dictionary with a fixed key set built by the
      callee is a record.
    - Python floats are idealised: entropy values are real numbers (they need
      [log2]); embedding components, distances and similarities are
      rationals, so that nearest-neighbour search can be evaluated.
    - External libraries (the language model, the sentence embedder, faiss,
      scikit-learn / numpy) are interfaces, given as type classes. *)

From Stdlib Require Import Ascii String ZArith QArith Qabs Reals Lra Lia Permutation
  Sorted.
From stdpp Require Import gmap strings.
Close Scope Q_scope.

(** ** Outcomes of Python calls *)

Inductive exn : Set :=
  | AttributeError
  | KeyError
  | IndexError
  | ValueError
  | ZeroDivisionError
  | AssertionError.

Inductive result (A : Type) : Type :=
  | Ok (a : A)
  | Raise (e : exn).
Arguments Ok {A} a.
Arguments Raise {A} e.

#[global] Instance result_ret : MRet result := fun _ a => Ok a.
#[global] Instance result_bind : MBind result := fun _ _ f m =>
  match m with
  | Ok a => f a
  | Raise e => Raise e
  end.

(** A [try: ... except Exception: ...] block. *)
Definition try_except {A} (body : result A) (handler : exn -> result A) : result A :=
  match body with
  | Ok a => Ok a
  | Raise e => handler e
  end.

(** ** Python built-ins used by the sources *)

Module py.

Definition len {A} (l : list A) : Z := Z.of_nat (length l).

(** [range(n)] *)
Definition range (n : Z) : list Z := Z.of_nat <$> seq 0 (Z.to_nat n).

(** Normalisation of a slice bound against a sequence of length [n]. *)
Definition slice_bound (n i : Z) : Z :=
  if (i <? 0)%Z then Z.max 0 (n + i) else Z.min i n.

(** [l[i:j]] *)
Definition slice {A} (l : list A) (i j : Z) : list A :=
  let a := slice_bound (len l) i in
  let b := slice_bound (len l) j in
  take (Z.to_nat (b - a)) (drop (Z.to_nat a) l).

(** [l[i]], with negative indices counted from the end. *)
Definition getitem {A} (l : list A) (i : Z) : result A :=
  let j := if (i <? 0)%Z then (len l + i)%Z else i in
  if (j <? 0)%Z then Raise IndexError
  else match l !! Z.to_nat j with
       | Some x => Ok x
       | None => Raise IndexError
       end.

(** [x in l] *)
Definition contains `{EqDecision A} (x : A) (l : list A) : bool :=
  existsb (fun y => bool_decide (x = y)) l.

(** [d[k]] on a dictionary. *)
Definition dict_getitem {V} (d : gmap string V) (k : string) : result V :=
  match d !! k with
  | Some v => Ok v
  | None => Raise KeyError
  end.

(** ASCII white space as [str.split()] and [str.strip()] see it. *)
Definition isspace (c : ascii) : bool :=
  let n := nat_of_ascii c in
  ((9 <=? n) && (n <=? 13)) || ((28 <=? n) && (n <=? 32)).

Definition lower_char (c : ascii) : ascii :=
  let n := nat_of_ascii c in
  if (65 <=? n) && (n <=? 90) then ascii_of_nat (n + 32) else c.

(** [s.lower()] *)
Fixpoint lower (s : string) : string :=
  match s with
  | EmptyString => EmptyString
  | String c s' => String (lower_char c) (lower s')
  end.

Fixpoint split_from (cur : string) (s : string) : list string :=
  match s with
  | EmptyString => if bool_decide (cur = EmptyString) then [] else [cur]
  | String c s' =>
      if isspace c
      then (if bool_decide (cur = EmptyString) then split_from EmptyString s'
            else cur :: split_from EmptyString s')
      else split_from (cur +:+ String c EmptyString) s'
  end.

(** [s.split()]: the maximal runs of non-space characters. *)
Definition split (s : string) : list string := split_from EmptyString s.

Fixpoint split_on_from (sep : ascii) (cur : string) (s : string) : list string :=
  match s with
  | EmptyString => [cur]
  | String c s' =>
      if bool_decide (c = sep) then cur :: split_on_from sep EmptyString s'
      else split_on_from sep (cur +:+ String c EmptyString) s'
  end.

(** [s.split(sep)] for a one-character separator: empty pieces are kept. *)
Definition split_on (sep : ascii) (s : string) : list string :=
  split_on_from sep EmptyString s.

Fixpoint lstrip (s : string) : string :=
  match s with
  | EmptyString => EmptyString
  | String c s' => if isspace c then lstrip s' else s
  end.

(** [s.strip()] *)
Definition strip (s : string) : string :=
  String.rev (lstrip (String.rev (lstrip s))).

(** [sep.join(l)] *)
Fixpoint join (sep : string) (l : list string) : string :=
  match l with
  | [] => EmptyString
  | [x] => x
  | x :: l' => x +:+ sep +:+ join sep l'
  end.

Fixpoint chars (s : string) : list ascii :=
  match s with
  | EmptyString => []
  | String c s' => c :: chars s'
  end.

Fixpoint is_prefix (p s : string) : bool :=
  match p, s with
  | EmptyString, _ => true
  | String a p', String b s' => bool_decide (a = b) && is_prefix p' s'
  | String _ _, EmptyString => false
  end.

(** [sub in s] on strings. *)
Fixpoint str_contains (sub s : string) : bool :=
  is_prefix sub s ||
  match s with
  | EmptyString => false
  | String _ s' => str_contains sub s'
  end.

(** [s.endswith(suffix)] *)
Definition endswith (s suffix : string) : bool :=
  is_prefix (String.rev suffix) (String.rev s).

(** [s[:n]] on a string, for [n >= 0]. *)
Fixpoint str_take (n : nat) (s : string) : string :=
  match n, s with
  | S n', String c s' => String c (str_take n' s')
  | _, _ => EmptyString
  end.

Fixpoint counter_add `{EqDecision A} (x : A) (c : list (A * nat)) : list (A * nat) :=
  match c with
  | [] => [(x, 1)]
  | (y, n) :: c' =>
      if bool_decide (x = y) then (y, S n) :: c' else (y, n) :: counter_add x c'
  end.

(** [collections.Counter(l)]: counts per distinct element, in order of
    first occurrence. *)
Definition Counter `{EqDecision A} (l : list A) : list (A * nat) :=
  fold_left (fun c x => counter_add x c) l [].

(** [c.values()] *)
Definition values {A B} (c : list (A * B)) : list B := snd <$> c.

Fixpoint split_str_from (sep : string) (skip : nat) (cur : string) (s : string)
    : list string :=
  match s with
  | EmptyString => [cur]
  | String c s' =>
      match skip with
      | S k => split_str_from sep k cur s'
      | O =>
          if is_prefix sep s
          then cur :: split_str_from sep (String.length sep - 1) EmptyString s'
          else split_str_from sep 0 (cur +:+ String c EmptyString) s'
      end
  end.

(** [s.split(sep)] for a non-empty separator string: the pieces between the
    occurrences of [sep], found from left to right ([skip] counts the
    characters of an occurrence still to pass over). *)
Definition split_str (sep : string) (s : string) : list string :=
  split_str_from sep 0 EmptyString s.

(** [l.remove(x)]: drops the first element equal to [x]. *)
Fixpoint remove `{EqDecision A} (x : A) (l : list A) : result (list A) :=
  match l with
  | [] => Raise ValueError
  | y :: l' =>
      if bool_decide (x = y) then Ok l'
      else l'' ← remove x l'; Ok (y :: l'')
  end.

(** [max(l)] on numbers; the empty sequence raises. *)
Definition max_Z (l : list Z) : result Z :=
  match l with
  | [] => Raise ValueError
  | x :: l' => Ok (fold_left Z.max l' x)
  end.

Definition max_Q (l : list Q) : result Q :=
  match l with
  | [] => Raise ValueError
  | x :: l' => Ok (fold_left (fun m y => if Qlt_le_dec m y then y else m) l' x)
  end.

(** [max(l, key=lambda x: x[1])] and [min(l, key=lambda x: x[1])]: the
    first of the elements with the largest (smallest) key. *)
Definition max_by_key {A} (l : list (A * Q)) : result (A * Q) :=
  match l with
  | [] => Raise ValueError
  | x :: l' =>
      Ok (fold_left (fun m y => if Qlt_le_dec (snd m) (snd y) then y else m) l' x)
  end.

Definition min_by_key {A} (l : list (A * Q)) : result (A * Q) :=
  match l with
  | [] => Raise ValueError
  | x :: l' =>
      Ok (fold_left (fun m y => if Qlt_le_dec (snd y) (snd m) then y else m) l' x)
  end.

Fixpoint insert_by_score {A} (x : A * R) (l : list (A * R)) : list (A * R) :=
  match l with
  | [] => [x]
  | y :: l' =>
      if Rle_dec (snd y) (snd x) then x :: y :: l'
      else y :: insert_by_score x l'
  end.

(** [l.sort(key=lambda x: x[1], reverse=True)] on pairs with a float score;
    the sort is stable. *)
Definition sort_by_score {A} (l : list (A * R)) : list (A * R) :=
  fold_right insert_by_score [] l.

End py.

(** ** External collaborators *)

(** scikit-learn as [entropy.py] uses it: [TfidfVectorizer(ngram_range,
    max_features).fit_transform(texts)], which can raise, and
    [cosine_similarity(matrix)], the square matrix with one row per text. *)
Class TfidfVectorizer := {
  tfidf_matrix : Type;
  fit_transform : Z * Z -> Z -> list string -> result tfidf_matrix;
  cosine_similarity : tfidf_matrix -> list (list R)
}.

(** ** [openkimi/core/entropy.py] *)

Module entropy.

Record EntropyEvaluator := {
  use_tfidf : bool;
  ngram_range : Z * Z;
  max_features : Z
}.

(** [EntropyEvaluator()] with the defaults of [__init__]. *)
Definition EntropyEvaluator_init : EntropyEvaluator :=
  {| use_tfidf := true; ngram_range := (1, 2)%Z; max_features := 10000 |}.

(** [math.log2] *)
Definition log2 (x : R) : R := (ln x / ln 2)%R.

(** [np.sum] and [np.mean] over a vector. *)
Definition np_sum (l : list R) : R := fold_right Rplus 0%R l.
Definition np_mean (l : list R) : R := (np_sum l / INR (length l))%R.

(** The loop shared by the word, n-gram, sentence-length and punctuation
    measures:
    [entropy = 0; for freq in freqs: p = freq / total; entropy -= p * log2(p)]. *)
Definition shannon (freqs : list nat) (total : nat) : R :=
  fold_left
    (fun entropy freq =>
       let p := (INR freq / INR total)%R in (entropy - p * log2 p)%R)
    freqs 0%R.

Definition calculate_word_entropy (text : string) : R :=
  let words := py.split (py.lower text) in
  let word_freq := py.Counter words in
  let total_words := length words in
  shannon (py.values word_freq) total_words.

Definition calculate_ngram_entropy (text : string) (n : Z) : R :=
  let words := py.split (py.lower text) in
  let ngrams :=
    (fun i => py.slice words i (i + n)) <$> py.range (py.len words - n + 1) in
  let ngram_freq := py.Counter ngrams in
  let total_ngrams := length ngrams in
  shannon (py.values ngram_freq) total_ngrams.

(** The similarity matrix has one row per text, so the loop
    [for i in range(len(texts)): text_similarities = similarities[i]] runs
    over its rows. *)
Definition calculate_semantic_entropy {vectorizer : TfidfVectorizer}
    (self : EntropyEvaluator) (texts : list string) : result R :=
  if negb (use_tfidf self) || bool_decide (texts = []) then Ok 0%R
  else
    tfidf ← fit_transform (ngram_range self) (max_features self) texts;
    let similarities := cosine_similarity tfidf in
    let semantic_entropies :=
      (fun text_similarities =>
         let total := np_sum text_similarities in
         let normalised := (fun x => (x / total)%R) <$> text_similarities in
         (- np_sum ((fun x => (x * log2 (x + 1e-10))%R) <$> normalised))%R)
      <$> similarities in
    Ok (np_mean semantic_entropies).

Definition calculate_structural_entropy (text : string) : R :=
  let sentences :=
    List.filter (fun s => negb (bool_decide (s = EmptyString)))
                (py.strip <$> py.split_on "." text) in
  if bool_decide (sentences = []) then 0%R
  else
    let lengths := (fun s => length (py.split s)) <$> sentences in
    let length_freq := py.Counter lengths in
    let total_sentences := length sentences in
    let length_entropy := shannon (py.values length_freq) total_sentences in
    let punctuation :=
      List.filter (fun c => py.contains c (py.chars ".,!?;:")) (py.chars text) in
    let punct_freq := py.Counter punctuation in
    let total_punct := length punctuation in
    let punct_entropy :=
      if 0 <? total_punct then shannon (py.values punct_freq) total_punct
      else 0%R in
    (0.7 * length_entropy + 0.3 * punct_entropy)%R.

(** The dictionary returned by [evaluate_text]; its five keys are fixed. *)
Record EntropyProfile := {
  word_entropy : R;
  ngram_entropy : R;
  semantic_entropy : R;
  structural_entropy : R;
  weighted_entropy : R
}.

Definition default_weights : gmap string R :=
  {[ "word" := 0.3%R; "ngram" := 0.2%R;
     "semantic" := 0.3%R; "structural" := 0.2%R ]}.

(** [weights or default_weights]: [None] and the empty dictionary are falsy. *)
Definition weights_or_default (weights : option (gmap string R)) : gmap string R :=
  match weights with
  | Some w => if bool_decide (size w = 0) then default_weights else w
  | None => default_weights
  end.

Definition evaluate_text {vectorizer : TfidfVectorizer} (self : EntropyEvaluator)
    (text : string) (texts : option (list string))
    (weights : option (gmap string R)) : result EntropyProfile :=
  let weights := weights_or_default weights in
  let word_entropy := calculate_word_entropy text in
  let ngram_entropy := calculate_ngram_entropy text 2 in
  semantic_entropy ← calculate_semantic_entropy self (text :: default [] texts);
  let structural_entropy := calculate_structural_entropy text in
  w_word ← py.dict_getitem weights "word";
  w_ngram ← py.dict_getitem weights "ngram";
  w_semantic ← py.dict_getitem weights "semantic";
  w_structural ← py.dict_getitem weights "structural";
  Ok {| word_entropy := word_entropy;
        ngram_entropy := ngram_entropy;
        semantic_entropy := semantic_entropy;
        structural_entropy := structural_entropy;
        weighted_entropy :=
          (w_word * word_entropy + w_ngram * ngram_entropy +
           w_semantic * semantic_entropy + w_structural * structural_entropy)%R |}.

End entropy.

(** ** [openkimi/core/processor.py] *)

Module processor.

Record TextProcessor := {
  batch_size : Z;
  entropy_threshold : R;
  overlap_size : Z;
  entropy_method : string;
  entropy_evaluator : entropy.EntropyEvaluator
}.

(** [TextProcessor(batch_size=...)], the other arguments at their defaults. *)
Definition TextProcessor_init (batch_size : Z) : TextProcessor :=
  {| batch_size := batch_size;
     entropy_threshold := 2.5%R;
     overlap_size := 50;
     entropy_method := "weighted";
     entropy_evaluator := entropy.EntropyEvaluator_init |}.

(** The backward scan
    [for i in range(hi - 1, start_idx, -1):
       if i < len(text_with_indices) and text_with_indices[i][1]:
         end_idx = i + 1; break]
    with [n] iterations left, the next one at index [i]. *)
Fixpoint scan_back (ends : list bool) (n : nat) (i : Z) : option Z :=
  match n with
  | O => None
  | S n' =>
      if (i <? py.len ends)%Z && default false (ends !! Z.to_nat i)
      then Some (i + 1)%Z
      else scan_back ends n' (i - 1)%Z
  end.

(** The [while start_idx < len(words)] loop of [split_into_batches]. *)
Fixpoint split_loop (fuel : nat) (self : TextProcessor) (words : list string)
    (ends : list bool) (start_idx : Z) (batches : list string)
    : option (list string) :=
  match fuel with
  | O => None
  | S fuel' =>
      if (start_idx <? py.len words)%Z then
        let hi := Z.min (start_idx + batch_size self) (py.len words) in
        let end_idx :=
          match scan_back ends (Z.to_nat (hi - 1 - start_idx)) (hi - 1)%Z with
          | Some e => e
          | None => hi
          end in
        let batches := batches ++ [py.join " " (py.slice words start_idx end_idx)] in
        let start_idx := Z.max 0 (end_idx - overlap_size self) in
        split_loop fuel' self words ends start_idx batches
      else Some batches
  end.

(** [range(0, n, step)] as the fixed-size branch iterates it. *)
Definition range_step (n step : Z) : result (list Z) :=
  if (step =? 0)%Z then Raise ValueError
  else if (step <? 0)%Z then Ok []
  else Ok ((fun k => (k * step)%Z) <$> py.range ((n + step - 1) / step)%Z).

Definition split_into_batches (fuel : nat) (self : TextProcessor)
    (text : string) (by_sentence : bool) : option (result (list string)) :=
  let words := py.split text in
  if by_sentence then
    let text_with_indices :=
      (fun word => py.endswith word "." || py.endswith word "!" ||
                   py.endswith word "?") <$> words in
    Ok <$> split_loop fuel self words text_with_indices 0 []
  else
    Some (starts ← range_step (py.len words) (batch_size self - overlap_size self);
          Ok ((fun i => py.join " " (py.slice words i (i + batch_size self)))
              <$> (starts : list Z))).

Definition calculate_entropy {vectorizer : TfidfVectorizer} (self : TextProcessor)
    (text : string) (context_texts : option (list string))
    : result entropy.EntropyProfile :=
  entropy.evaluate_text (entropy_evaluator self) text context_texts None.

(** The [if/elif] chain that picks the score named by [entropy_method]. *)
Definition select_entropy (self : TextProcessor)
    (entropy_results : entropy.EntropyProfile) : R :=
  if bool_decide (entropy_method self = "word")
  then entropy.word_entropy entropy_results
  else if bool_decide (entropy_method self = "ngram")
  then entropy.ngram_entropy entropy_results
  else if bool_decide (entropy_method self = "semantic")
  then entropy.semantic_entropy entropy_results
  else if bool_decide (entropy_method self = "structural")
  then entropy.structural_entropy entropy_results
  else entropy.weighted_entropy entropy_results.

(** The second loop of [classify_by_entropy], over [zip(batches, entropies)]. *)
Fixpoint classify_loop (threshold : R) (scored : list (string * R))
    : list string * list string :=
  match scored with
  | [] => ([], [])
  | (batch, e) :: rest =>
      let '(useful_batches, less_useful_batches) := classify_loop threshold rest in
      if Rge_dec e threshold
      then (batch :: useful_batches, less_useful_batches)
      else (useful_batches, batch :: less_useful_batches)
  end.

Definition classify_by_entropy {vectorizer : TfidfVectorizer} (self : TextProcessor)
    (batches : list string) (threshold : option R) (context_aware : bool)
    : result (list string * list string) :=
  let threshold := default (entropy_threshold self) threshold in
  entropies ←
    mapM (fun batch =>
            let context_texts := if context_aware then Some batches else None in
            entropy_results ← calculate_entropy self batch context_texts;
            Ok (select_entropy self entropy_results))
         batches;
  Ok (classify_loop threshold (zip batches entropies)).

Definition get_batch_entropy_ranking {vectorizer : TfidfVectorizer}
    (self : TextProcessor) (batches : list string) (context_aware : bool)
    : result (list (string * R)) :=
  batch_entropies ←
    mapM (fun batch =>
            let context_texts := if context_aware then Some batches else None in
            entropy_results ← calculate_entropy self batch context_texts;
            Ok (batch, select_entropy self entropy_results))
         batches;
  Ok (py.sort_by_score batch_entropies).

(** [extract_key_segments]; the fuel goes to [split_into_batches], called
    with its default [by_sentence=True]. *)
Definition extract_key_segments {vectorizer : TfidfVectorizer} (fuel : nat)
    (self : TextProcessor) (text : string) (top_k : Z)
    : option (result (list string)) :=
  match split_into_batches fuel self text true with
  | None => None
  | Some (Raise e) => Some (Raise e)
  | Some (Ok batches) =>
      Some (ranked_batches ← get_batch_entropy_ranking self batches true;
            Ok (fst <$> py.slice (ranked_batches : list (string * R)) 0 top_k))
  end.

End processor.

(** ** More external collaborators: models, index, numeric routines *)

(** An embedding, [np.ndarray] of [float32]. *)
Definition Vec : Type := list Q.

(** The language model, [model.generate(prompt)]. *)
Class LLMInterface := {
  generate : string -> string
}.

(** A tokenizer as [engine.py] and [TokenCounter] use it:
    [encode(text, max_length=..., truncation=...)] and [decode(tokens)]. *)
Class Tokenizer := {
  token : Type;
  encode : string -> option Z -> bool -> list token;
  decode : list token -> string
}.

(** [SentenceTransformer(name).encode(text)] *)
Class SentenceTransformer := {
  SentenceTransformer_encode : string -> Vec
}.

(** [faiss.IndexFlatL2]: the indexed vectors are a list; [add] and [search]
    can raise; [search] answers the rows [distances[0]] and [indices[0]]. *)
Class Faiss := {
  IndexFlatL2_add : list Vec -> list Vec -> result (list Vec);
  IndexFlatL2_search : list Vec -> Vec -> Z -> result (list Q * list Z)
}.

(** The fallback scan of [retrieve]:
    [cosine_similarity(query, embeddings)[0]] and [np.argsort]. *)
Class Numeric := {
  cosine_similarity_to : Vec -> list Vec -> result (list Q);
  argsort : list Q -> list Z
}.

(** [np.dot] and [np.linalg.norm], used by the scan of [RAGManager.search]. *)
Class NumpyLinalg := {
  np_dot : Vec -> Vec -> Q;
  np_norm : Vec -> Q
}.

(** ** [openkimi/core/rag.py] *)

Module rag.

Record RAGManager := {
  use_faiss : bool;
  max_chunk_size : Z;
  overlap_size : Z;
  similarity_threshold : Q;
  embeddings : list Vec;
  texts : list string;
  index : option (list Vec);
  (** the template, as the text before and the text after [{text}] *)
  summarize_prompt_template : string * string
}.

(** [RAGManager(model, use_faiss=...)]: the state [__init__] leaves, with
    the summary template that [load_prompt] (or the hard-coded fallback)
    provided. The index attribute is assigned only when [use_faiss]. *)
Definition RAGManager_init (use_faiss : bool) (template : string * string)
    : RAGManager :=
  {| use_faiss := use_faiss;
     max_chunk_size := 512;
     overlap_size := 50;
     similarity_threshold := 0.7%Q;
     embeddings := [];
     texts := [];
     index := if use_faiss then Some [] else None;
     summarize_prompt_template := template |}.

Definition set_texts (self : RAGManager) (t : list string) : RAGManager :=
  {| use_faiss := use_faiss self;
     max_chunk_size := max_chunk_size self;
     overlap_size := overlap_size self;
     similarity_threshold := similarity_threshold self;
     embeddings := embeddings self;
     texts := t;
     index := index self;
     summarize_prompt_template := summarize_prompt_template self |}.

Definition set_embeddings (self : RAGManager) (e : list Vec) : RAGManager :=
  {| use_faiss := use_faiss self;
     max_chunk_size := max_chunk_size self;
     overlap_size := overlap_size self;
     similarity_threshold := similarity_threshold self;
     embeddings := e;
     texts := texts self;
     index := index self;
     summarize_prompt_template := summarize_prompt_template self |}.

Definition set_index (self : RAGManager) (ix : list Vec) : RAGManager :=
  {| use_faiss := use_faiss self;
     max_chunk_size := max_chunk_size self;
     overlap_size := overlap_size self;
     similarity_threshold := similarity_threshold self;
     embeddings := embeddings self;
     texts := texts self;
     index := Some ix;
     summarize_prompt_template := summarize_prompt_template self |}.

(** [self.similarity_threshold = t] *)
Definition set_similarity_threshold (self : RAGManager) (t : Q) : RAGManager :=
  {| use_faiss := use_faiss self;
     max_chunk_size := max_chunk_size self;
     overlap_size := overlap_size self;
     similarity_threshold := t;
     embeddings := embeddings self;
     texts := texts self;
     index := index self;
     summarize_prompt_template := summarize_prompt_template self |}.

Definition summarize_text {model : LLMInterface} (self : RAGManager) (text : string)
    : string :=
  let prompt :=
    fst (summarize_prompt_template self) +:+ text +:+
    snd (summarize_prompt_template self) in
  let summary := generate prompt in
  py.strip summary.

(** [try: self.index.add(vectors) except Exception: log]: on failure the
    index is left as it was. *)
Definition index_add_logged {faiss_lib : Faiss} (self : RAGManager) (ix : list Vec)
    (vectors : list Vec) : RAGManager :=
  match IndexFlatL2_add ix vectors with
  | Ok ix' => set_index self ix'
  | Raise _ => self
  end.

Definition store_text {model : LLMInterface}
    {embedding_model : SentenceTransformer} {faiss_lib : Faiss}
    (self : RAGManager) (text : string) : string * RAGManager :=
  let summary := summarize_text self text in
  if py.contains summary (texts self) then (summary, self)
  else
    let self := set_texts self (texts self ++ [summary]) in
    let summary_embedding := SentenceTransformer_encode summary in
    let self := set_embeddings self (embeddings self ++ [summary_embedding]) in
    match use_faiss self, index self with
    | true, Some ix =>
        let self := set_texts self (texts self ++ [summary]) in
        (summary, index_add_logged self ix [summary_embedding])
    | _, _ => (summary, self)
    end.

(** The accumulators of the loop of [batch_store]. *)
Record batch_acc := {
  acc_self : RAGManager;
  summaries : list string;
  new_vectors : list Vec;
  new_summaries : list string
}.

Definition batch_step {model : LLMInterface}
    {embedding_model : SentenceTransformer}
    (acc : batch_acc) (text : string) : batch_acc :=
  let self := acc_self acc in
  let summary := summarize_text self text in
  if py.contains summary (texts self) then
    {| acc_self := self;
       summaries := summaries acc ++ [summary];
       new_vectors := new_vectors acc;
       new_summaries := new_summaries acc |}
  else
    let self := set_texts self (texts self ++ [summary]) in
    let summary_embedding := SentenceTransformer_encode summary in
    let self := set_embeddings self (embeddings self ++ [summary_embedding]) in
    {| acc_self := self;
       summaries := summaries acc ++ [summary];
       new_vectors := new_vectors acc ++ [summary_embedding];
       new_summaries := new_summaries acc ++ [summary] |}.

Definition batch_store {model : LLMInterface}
    {embedding_model : SentenceTransformer} {faiss_lib : Faiss}
    (self : RAGManager) (texts_in : list string) : list string * RAGManager :=
  match texts_in with
  | [] => ([], self)
  | _ =>
      let acc :=
        fold_left batch_step texts_in
          {| acc_self := self; summaries := [];
             new_vectors := []; new_summaries := [] |} in
      let self := acc_self acc in
      match use_faiss self, index self, new_vectors acc with
      | true, Some ix, _ :: _ =>
          let self := set_texts self (texts self ++ new_summaries acc) in
          (summaries acc, index_add_logged self ix (new_vectors acc))
      | _, _, _ => (summaries acc, self)
      end
  end.

(** The loop of [retrieve] over the labels [indices[0]] of the index. *)
Fixpoint faiss_results (texts : list string) (indices : list Z)
    : result (list string) :=
  match indices with
  | [] => Ok []
  | idx :: rest =>
      if (idx <? py.len texts)%Z then
        summary ← py.getitem texts idx;
        results ← faiss_results texts rest;
        Ok (if py.contains summary texts then summary :: results else results)
      else faiss_results texts rest
  end.

(** [[self.texts[i] for i in top_k_indices if similarities[i] > 0]] *)
Fixpoint positive_results (texts : list string) (similarities : list Q)
    (top_k_indices : list Z) : result (list string) :=
  match top_k_indices with
  | [] => Ok []
  | i :: rest =>
      s ← py.getitem similarities i;
      if Qlt_le_dec 0 s then
        t ← py.getitem texts i;
        results ← positive_results texts similarities rest;
        Ok (t :: results)
      else positive_results texts similarities rest
  end.

Definition retrieve {embedding_model : SentenceTransformer}
    {faiss_lib : Faiss} {numeric : Numeric}
    (self : RAGManager) (query : string) (top_k : Z) : result (list string) :=
  if bool_decide (texts self = []) then Ok []
  else if bool_decide (embeddings self = []) then Ok []
  else
    let query_embedding := SentenceTransformer_encode query in
    let fallback :=
      similarities ← cosine_similarity_to query_embedding (embeddings self);
      let top_k_indices := py.slice (rev (argsort similarities)) 0 top_k in
      positive_results (texts self) similarities top_k_indices in
    match use_faiss self, index self with
    | true, Some ix =>
        try_except
          ('(distances, indices) ←
             IndexFlatL2_search ix query_embedding
               (Z.min top_k (py.len (texts self)));
           faiss_results (texts self) indices)
          (fun _ => fallback)
    | _, _ => fallback
    end.

(** [rag.rag_store.keys()]: no method of [RAGManager] assigns an attribute
    [rag_store] (the attributes are [model], [embedding_model], [use_faiss],
    [max_chunk_size], [overlap_size], [similarity_threshold], [embeddings],
    [texts], [index], [vector_dimension], [summarize_prompt_template] and
    [logger]), so the attribute lookup raises. *)
Definition rag_store_keys (self : RAGManager) : result (list string) :=
  Raise AttributeError.

(** The loop of [search] over [zip(distances[0], indices[0])]. *)
Fixpoint search_hits (self : RAGManager) (hits : list (Q * Z))
    : result (list string) :=
  match hits with
  | [] => Ok []
  | (distance, idx) :: rest =>
      if (idx <? py.len (texts self))%Z then
        let similarity := (1 / (1 + distance))%Q in
        if Qle_bool (similarity_threshold self) similarity then
          t ← py.getitem (texts self) idx;
          results ← search_hits self rest;
          Ok (t :: results)
        else search_hits self rest
      else search_hits self rest
  end.

(** [[self.texts[i] for i in top_indices
      if similarities[i] >= self.similarity_threshold]] *)
Fixpoint threshold_results (self : RAGManager) (similarities : list Q)
    (top_indices : list Z) : result (list string) :=
  match top_indices with
  | [] => Ok []
  | i :: rest =>
      s ← py.getitem similarities i;
      if Qle_bool (similarity_threshold self) s then
        t ← py.getitem (texts self) i;
        results ← threshold_results self similarities rest;
        Ok (t :: results)
      else threshold_results self similarities rest
  end.

(** [search] (a coroutine in the source; it awaits nothing). With
    [use_faiss] the index attribute must exist. The quotients are those of
    [Q]: they are numpy's as long as the divisor is not zero, that is for
    distances other than [-1] (an L2 index reports none below 0) and, in the
    scan, for embeddings of non-zero norm. *)
Definition search {embedding_model : SentenceTransformer}
    {faiss_lib : Faiss} {numeric : Numeric} {linalg : NumpyLinalg}
    (self : RAGManager) (query : string) (top_k : Z) : result (list string) :=
  let query_embedding := SentenceTransformer_encode query in
  if use_faiss self then
    match index self with
    | None => Raise AttributeError
    | Some ix =>
        '(distances, indices) ←
          IndexFlatL2_search ix query_embedding
            (Z.min top_k (py.len (texts self)));
        results ← search_hits self (zip distances indices);
        Ok (py.slice (results : list string) 0 top_k)
    end
  else
    let similarities :=
      (fun embedding =>
         (np_dot query_embedding embedding /
          (np_norm query_embedding * np_norm embedding))%Q)
      <$> embeddings self in
    let sorted := argsort similarities in
    let top_indices := rev (py.slice sorted (- top_k) (py.len sorted)) in
    threshold_results self similarities top_indices.

End rag.

(** ** [openkimi/core/framework.py] *)

Module framework.

(** The instance state that the sampling strategies read. [__init__] assigns
    [model] and the two strategy tables only: [current_query] is an
    attribute that exists only if a caller has assigned it from outside. *)
Record FrameworkGenerator := {
  current_query : option string
}.

(** [FrameworkGenerator(model)] *)
Definition FrameworkGenerator_init : FrameworkGenerator :=
  {| current_query := None |}.

(** [self.current_query] *)
Definition get_current_query (self : FrameworkGenerator) : result string :=
  match current_query self with
  | Some q => Ok q
  | None => Raise AttributeError
  end.

Definition calculate_relevance (text query : string) : result Q :=
  let query_words : gset string := list_to_set (py.split (py.lower query)) in
  let text_words : gset string := list_to_set (py.split (py.lower text)) in
  if bool_decide (size query_words = 0) then Raise ZeroDivisionError
  else Ok (Qmake (Z.of_nat (size (query_words ∩ text_words)))
                 (Pos.of_nat (size query_words))).

(** Insertion for [list.sort(key=lambda x: x[1], reverse=True)], which is
    stable: an element stays before the later ones of equal key. *)
Fixpoint insert_desc (x : string * Q) (l : list (string * Q))
    : list (string * Q) :=
  match l with
  | [] => [x]
  | y :: l' =>
      if Qle_bool (snd y) (snd x) then x :: y :: l'
      else y :: insert_desc x l'
  end.

Definition sort_desc (l : list (string * Q)) : list (string * Q) :=
  fold_right insert_desc [] l.

Definition _relevance_based_sampling (self : FrameworkGenerator)
    (useful_context : string) (rag_context : list string) (num_samples : Z)
    : result (list string) :=
  let all_contexts := useful_context :: rag_context in
  context_relevance ←
    mapM (fun ctx =>
            query ← get_current_query self;
            r ← calculate_relevance ctx query;
            Ok (ctx, r))
         all_contexts;
  Ok (fst <$> py.slice (sort_desc context_relevance) 0 num_samples).

(** The local [calculate_entropy] of [_entropy_based_sampling]:
    [-sum((freq/total_words) * np.log2(freq/total_words) for freq in ...)]. *)
Definition calculate_entropy (text : string) : R :=
  let words := py.split (py.lower text) in
  let word_freq := py.Counter words in
  let total_words := length words in
  (- fold_left Rplus
       ((fun freq =>
           (INR freq / INR total_words *
            entropy.log2 (INR freq / INR total_words))%R)
        <$> py.values word_freq)
       0)%R.

Definition _entropy_based_sampling (useful_context : string)
    (rag_context : list string) (num_samples : Z) : list string :=
  let all_contexts := useful_context :: rag_context in
  let context_entropy :=
    (fun ctx => (ctx, calculate_entropy ctx)) <$> all_contexts in
  fst <$> py.slice (py.sort_by_score context_entropy) 0 num_samples.

(** The local [calculate_similarity] of [_diversity_based_sampling]: the
    Jaccard index of the two word sets. *)
Definition calculate_similarity (text1 text2 : string) : result Q :=
  let words1 : gset string := list_to_set (py.split (py.lower text1)) in
  let words2 : gset string := list_to_set (py.split (py.lower text2)) in
  if bool_decide (size (words1 ∪ words2) = 0) then Raise ZeroDivisionError
  else Ok (Qmake (Z.of_nat (size (words1 ∩ words2)))
                 (Pos.of_nat (size (words1 ∪ words2)))).

(** The [while len(selected) < num_samples and remaining] loop. *)
Fixpoint diversity_loop (fuel : nat) (num_samples : Z)
    (selected remaining : list string) : option (result (list string)) :=
  match fuel with
  | O => None
  | S fuel' =>
      if (py.len selected <? num_samples)%Z
         && negb (bool_decide (remaining = []))
      then
        match
          max_similarities ←
            mapM (fun ctx =>
                    similarities ←
                      mapM (fun sel => calculate_similarity ctx sel) selected;
                    m ← py.max_Q similarities;
                    Ok (ctx, m))
                 remaining;
          next ← py.min_by_key max_similarities;
          let next_sample := fst (next : string * Q) in
          remaining' ← py.remove next_sample remaining;
          Ok (next_sample, remaining')
        with
        | Raise e => Some (Raise e)
        | Ok (next_sample, remaining') =>
            diversity_loop fuel' num_samples (selected ++ [next_sample])
              remaining'
        end
      else Some (Ok selected)
  end.

(** [_diversity_based_sampling]; [draw] stands for the random draw of
    [random.choice(remaining)], which picks the element at index
    [draw mod len(remaining)]. *)
Definition _diversity_based_sampling (fuel : nat) (draw : nat)
    (useful_context : string) (rag_context : list string) (num_samples : Z)
    : option (result (list string)) :=
  let all_contexts := useful_context :: rag_context in
  let first :=
    default useful_context
      (all_contexts !! (draw mod length all_contexts)) in
  match py.remove first all_contexts with
  | Raise e => Some (Raise e)
  | Ok remaining => diversity_loop fuel num_samples [first] remaining
  end.

(** One position of [_weighted_average]: the sentences the candidates have
    there, the non-blank ones with their weights, and the first of those
    with the largest weight. *)
Definition weighted_choice (sentences : list (list string)) (weights : list Q)
    (i : nat) : list string :=
  let current_sentences :=
    (fun s => default EmptyString (s !! i)) <$> sentences in
  let non_empty :=
    List.filter (fun sw => negb (bool_decide (py.strip (fst sw) = EmptyString)))
                (zip current_sentences weights) in
  match py.max_by_key non_empty with
  | Ok sw => [fst sw]
  | Raise _ => []
  end.

Definition _weighted_average (query framework : string)
    (candidates : list string) : result string :=
  let weights := replicate (length candidates) 1%Q in
  let sentences := py.split_str ". " <$> candidates in
  max_sentences ← py.max_Z (py.len <$> sentences);
  let final_sentences :=
    flat_map (weighted_choice sentences weights)
             (seq 0 (Z.to_nat max_sentences)) in
  Ok (py.join ". " final_sentences).

End framework.

(** ** [openkimi/core/engine.py] *)

Module engine.

(** [TokenCounter.count_tokens] *)
Definition count_tokens {tokenizer : Tokenizer} (text : string) : Z :=
  if bool_decide (text = EmptyString) then 0%Z
  else py.len (encode text None false).

(** The entries of [self.config] that the compressor reads, [None] when the
    key is absent. *)
Record Config := {
  processor_entropy_threshold : option R;
  rag_use_faiss : option bool
}.

Record KimiEngine := {
  config : Config;
  processor : processor.TextProcessor;
  (** what [load_prompt('summarize')] gives a new [RAGManager] *)
  summarize_template : string * string
}.

Definition newline : string := String (ascii_of_nat 10) EmptyString.

(** [_recursive_rag_compress]; each call uses one unit of fuel and hands the
    rest to the chunking loop and to the recursive call. The test
    [len(compressed_text) < len(text) * 0.9] is taken exactly, as
    [10 * len(compressed_text) < 9 * len(text)]. *)
Fixpoint _recursive_rag_compress
    {tokenizer : Tokenizer} {model : LLMInterface}
    {embedding_model : SentenceTransformer} {faiss_lib : Faiss}
    {vectorizer : TfidfVectorizer}
    (fuel : nat) (self : KimiEngine) (text : string) (target_token_limit : Z)
    {struct fuel} : option (result string) :=
  match fuel with
  | O => None
  | S fuel' =>
      let current_tokens := count_tokens text in
      if (current_tokens <=? target_token_limit)%Z then Some (Ok text)
      else
        let temp_rag :=
          rag.RAGManager_init (default true (rag_use_faiss (config self)))
                              (summarize_template self) in
        match processor.split_into_batches fuel' (processor self) text true with
        | None => None
        | Some (Raise e) => Some (Raise e)
        | Some (Ok batches) =>
            match processor.classify_by_entropy (processor self) batches
                    (Some (default 3.0%R
                             (processor_entropy_threshold (config self))))
                    true with
            | Raise e => Some (Raise e)
            | Ok (useful_batches, less_useful_batches) =>
                let temp_rag :=
                  snd (rag.batch_store temp_rag less_useful_batches) in
                match rag.rag_store_keys temp_rag with
                | Raise e => Some (Raise e)
                | Ok keys =>
                    let compressed_text_parts := useful_batches ++ keys in
                    let compressed_text :=
                      py.join newline compressed_text_parts in
                    let new_tokens := count_tokens compressed_text in
                    if (target_token_limit <? new_tokens)%Z then
                      if (10 * Z.of_nat (String.length compressed_text) <?
                          9 * Z.of_nat (String.length text))%Z
                      then _recursive_rag_compress fuel' self compressed_text
                             target_token_limit
                      else Some (Ok (decode (encode compressed_text
                                               (Some target_token_limit) true)))
                    else Some (Ok compressed_text)
                end
            end
        end
  end.

(** An entry of [conversation_history], a dictionary with the keys
    [role] and [content]. *)
Record Message := {
  role : string;
  content : string
}.

(** The rest of the engine's state: the prompt budget
    [int(max_context_tokens * 0.8)], the main store and the history. *)
Record Session := {
  core : KimiEngine;
  max_prompt_tokens : Z;
  rag_manager : rag.RAGManager;
  conversation_history : list Message
}.

Definition _prepare_llm_input
    {tokenizer : Tokenizer} {model : LLMInterface}
    {embedding_model : SentenceTransformer} {faiss_lib : Faiss}
    {vectorizer : TfidfVectorizer}
    (fuel : nat) (self : Session) (prompt : string) : option (result string) :=
  let prompt_tokens := count_tokens prompt in
  if (prompt_tokens <=? max_prompt_tokens self)%Z then Some (Ok prompt)
  else _recursive_rag_compress fuel (core self) prompt (max_prompt_tokens self).

(** [f"{message['role']}: {message['content']}"] *)
Definition msg_text (message : Message) : string :=
  role message +:+ ": " +:+ content message.

(** The loop of [_get_recent_context] over [reversed(conversation_history)],
    with the accumulators [recent_messages_text] and [current_tokens]. *)
Fixpoint recent_loop {tokenizer : Tokenizer} (messages : list Message)
    (max_tokens : Z) (recent_messages_text : list string)
    (current_tokens : Z) : list string :=
  match messages with
  | [] => recent_messages_text
  | message :: rest =>
      let msg_tokens := count_tokens (msg_text message) in
      if (max_tokens <? current_tokens + msg_tokens)%Z then
        match recent_messages_text with
        | [] =>
            [decode (encode (msg_text message) (Some max_tokens) true)]
        | _ => recent_messages_text
        end
      else
        recent_loop rest max_tokens
          (recent_messages_text ++ [msg_text message])
          (current_tokens + msg_tokens)
  end.

Definition _get_recent_context {tokenizer : Tokenizer} (self : Session)
    (max_tokens : Z) : string :=
  let recent_messages_text :=
    recent_loop (rev (conversation_history self)) max_tokens [] 0 in
  py.join (newline +:+ newline) (rev recent_messages_text).

(** [ingest]; the fuel goes to [_prepare_llm_input] and to
    [split_into_batches]. It returns the session it leaves behind. *)
Definition ingest
    {tokenizer : Tokenizer} {model : LLMInterface}
    {embedding_model : SentenceTransformer} {faiss_lib : Faiss}
    {vectorizer : TfidfVectorizer}
    (fuel : nat) (self : Session) (text : string) : option (result Session) :=
  match _prepare_llm_input fuel self text with
  | None => None
  | Some (Raise e) => Some (Raise e)
  | Some (Ok ingest_text) =>
      match processor.split_into_batches fuel (processor (core self))
              ingest_text true with
      | None => None
      | Some (Raise e) => Some (Raise e)
      | Some (Ok batches) =>
          match processor.classify_by_entropy (processor (core self)) batches
                  (Some (default 3.0%R
                           (processor_entropy_threshold (config (core self)))))
                  true with
          | Raise e => Some (Raise e)
          | Ok (useful_batches, less_useful_batches) =>
              let rag_manager' :=
                snd (rag.batch_store (rag_manager self) less_useful_batches) in
              let useful_content := py.join newline useful_batches in
              Some (Ok {| core := core self;
                          max_prompt_tokens := max_prompt_tokens self;
                          rag_manager := rag_manager';
                          conversation_history :=
                            conversation_history self ++
                            [{| role := "system";
                                content := useful_content |}] |})
          end
      end
  end.

End engine.

(** ** The test doubles of [openkimi/utils/llm_interface.py] *)

Module llm_interface.

(** [SimpleTokenizer]: one token per character. *)
Definition SimpleTokenizer : Tokenizer :=
  {| token := ascii;
     encode text max_length truncation :=
       let tokens := py.chars text in
       match max_length with
       | Some m =>
           if negb (m =? 0)%Z && truncation && (m <? py.len tokens)%Z
           then py.slice tokens 0 m
           else tokens
       | None => tokens
       end;
     decode tokens := string_of_list_ascii tokens |}.

(** [DummyLLM.generate]. The prefix [prompt[:30]] is taken on bytes, which
    is the source's prefix for prompts that start with 30 ASCII characters. *)
Definition DummyLLM : LLMInterface :=
  {| generate prompt :=
       if py.str_contains "摘要" prompt
       then "[Dummy Summary of: " +:+ py.str_take 30 prompt +:+ "...]"
       else if py.str_contains "框架" prompt
       then "[Dummy Framework: 1. Step A 2. Step B]"
       else if py.str_contains "候选方案" prompt
       then "[Dummy Synthesized Solution for: " +:+ py.str_take 30 prompt +:+ "...]"
       else "[Dummy Response to: " +:+ py.str_take 30 prompt +:+ "...]" |}.

End llm_interface.

(** ** Reference instances of the external collaborators *)

Module faiss.

(** The distance [IndexFlatL2] reports for an empty result slot. *)
Definition FLT_MAX : Q := 340282346638528859811704183484516925440%Q.

(** Squared Euclidean distance. *)
Definition l2_sqr (a b : Vec) : Q :=
  fold_right Qplus 0%Q (zip_with (fun x y => ((x - y) * (x - y))%Q) a b).

Fixpoint insert_asc (x : Q * Z) (l : list (Q * Z)) : list (Q * Z) :=
  match l with
  | [] => [x]
  | y :: l' =>
      if Qle_bool (fst x) (fst y) then x :: y :: l' else y :: insert_asc x l'
  end.

(** All indexed vectors by increasing distance to [q], ties by label. *)
Definition ranked (ix : list Vec) (q : Vec) : list (Q * Z) :=
  fold_right insert_asc []
    (zip ((fun v => l2_sqr q v) <$> ix) (py.range (py.len ix))).

(** [index.search(q, k)] as faiss documents it for a flat L2 index: exact
    search, [k] result slots, the slots beyond the number of indexed
    vectors filled with label [-1]; [k] must be positive. *)
Definition search (ix : list Vec) (q : Vec) (k : Z) : result (list Q * list Z) :=
  if (k <=? 0)%Z then Raise AssertionError
  else
    let hits := take (Z.to_nat k) (ranked ix q) in
    let slots :=
      hits ++ replicate (Z.to_nat k - length hits) (FLT_MAX, (-1)%Z) in
    Ok (fst <$> slots, snd <$> slots).

Definition IndexFlatL2 : Faiss :=
  {| IndexFlatL2_add ix vectors := Ok (ix ++ vectors);
     IndexFlatL2_search := search |}.

End faiss.

Module sklearn.

(** A word character, [\w] of the default [token_pattern]
    [(?u)\b\w\w+\b] of [TfidfVectorizer], on ASCII: a letter, a digit or
    the underscore. *)
Definition is_word_char (c : ascii) : bool :=
  let n := nat_of_ascii c in
  (48 <=? n) && (n <=? 57) || (65 <=? n) && (n <=? 90) ||
  (97 <=? n) && (n <=? 122) || (n =? 95).

(** Whether a document has a token: the pattern matches the runs of two or
    more word characters, so a token exists exactly when two word
    characters are adjacent. *)
Fixpoint has_token (s : string) : bool :=
  match s with
  | String a (String b _ as s') =>
      is_word_char a && is_word_char b || has_token s'
  | _ => false
  end.

(** The vocabulary that [fit_transform] learns is made of the tokens of the
    documents and their n-grams; when no document has a token it is empty
    and [fit_transform] raises [ValueError] (empty vocabulary). *)
Definition empty_vocabulary (texts : list string) : bool :=
  negb (existsb has_token texts).

End sklearn.

Module doubles.

(** An embedder for examples: the one-dimensional vector holding the length
    of the text. *)
Definition length_embedding : SentenceTransformer :=
  {| SentenceTransformer_encode text :=
       [inject_Z (Z.of_nat (String.length text))] |}.

(** A vectorizer for examples. Like scikit-learn's, [fit_transform] raises
    [ValueError] on documents without any token (empty vocabulary) and
    accepts every other list. Two documents score 1 when they are equal and
    have a token, and 0 otherwise: the cosine similarity of documents that
    are identical or share no term, a document without token being the zero
    vector. *)
Definition exact_match_vectorizer : TfidfVectorizer :=
  {| tfidf_matrix := list string;
     fit_transform _ _ texts :=
       if sklearn.empty_vocabulary texts then Raise ValueError else Ok texts;
     cosine_similarity texts :=
       (fun a =>
          (fun b =>
             if bool_decide (a = b) && sklearn.has_token a then 1%R else 0%R)
          <$> texts)
       <$> texts |}.

(** An ASCII summary template, [Summarize: {text}]. *)
Definition template : string * string := ("Summarize: ", EmptyString).

(** [KimiEngine()] with the default configuration of [_load_config] and the
    processor [TextProcessor(batch_size=512)] that [__init__] builds. *)
Definition default_engine : engine.KimiEngine :=
  {| engine.config :=
       {| engine.processor_entropy_threshold := Some 3.0%R;
          engine.rag_use_faiss := Some true |};
     engine.processor := processor.TextProcessor_init 512;
     engine.summarize_template := template |}.

(** The store after [RAGManager(DummyLLM()).store_text("hello world")],
    with the length embedder and the flat index. *)
Definition one_text_store : rag.RAGManager :=
  snd (rag.store_text (model := llm_interface.DummyLLM)
         (embedding_model := length_embedding)
         (faiss_lib := faiss.IndexFlatL2)
         (rag.RAGManager_init true template) "hello world").

(** A session around [default_engine]: a model context of 2048 tokens
    ([DummyLLM.max_context]), hence a prompt budget of [int(2048 * 0.8)],
    a new main store and an empty history. *)
Definition default_session : engine.Session :=
  {| engine.core := default_engine;
     engine.max_prompt_tokens := 1638;
     engine.rag_manager := rag.RAGManager_init true template;
     engine.conversation_history := [] |}.

(** numpy and scikit-learn on the one-dimensional vectors of
    [length_embedding]: the norm of [[x]] is [|x|], and the cosine of two
    such vectors is the sign of the product of their components, 0 when one
    of them is the zero vector. [argsort] lists the positions by increasing
    value. *)
Definition line_cosine (a b : Vec) : Q :=
  match a, b with
  | [x], [y] =>
      if Qlt_le_dec 0 (x * y) then 1%Q
      else if Qlt_le_dec (x * y) 0 then (-1)%Q else 0%Q
  | _, _ => 0%Q
  end.

Definition line_numeric : Numeric :=
  {| cosine_similarity_to query_embedding embeddings :=
       Ok (line_cosine query_embedding <$> embeddings);
     argsort similarities :=
       snd <$> fold_right faiss.insert_asc []
                 (zip similarities (py.range (py.len similarities))) |}.

Definition line_linalg : NumpyLinalg :=
  {| np_dot a b := fold_right Qplus 0%Q (zip_with Qmult a b);
     np_norm v := match v with [x] => Qabs x | _ => 0%Q end |}.

End doubles.

(** ** Relations used to state the properties *)

(** [distributed l k c]: every element of [l], taken by position, has gone
    to exactly one of [k] and [c], each keeping the order of [l]. *)
Inductive distributed {A : Type} : list A -> list A -> list A -> Prop :=
  | distributed_nil : distributed [] [] []
  | distributed_left x l k c :
      distributed l k c -> distributed (x :: l) (x :: k) c
  | distributed_right x l k c :
      distributed l k c -> distributed (x :: l) k (x :: c).

(** A text without tokens: white space only. *)
Definition blank (s : string) : Prop :=
  Forall (fun c => py.isspace c = true) (py.chars s).

(** A word as [str.split()] produces it: not empty, no white space. *)
Definition is_word (w : string) : Prop :=
  w <> EmptyString /\ Forall (fun c => py.isspace c = false) (py.chars w).

(** The distinct elements of a list, in order of first occurrence. *)
Definition nub `{EqDecision A} (l : list A) : list A :=
  fold_left (fun acc x => if py.contains x acc then acc else acc ++ [x]) l [].

(** What the store operations keep true: one embedding per distinct stored
    summary, in order of first storage, and a summary list that is twice as
    long as the embedding list when the index is in use, as long otherwise. *)
Definition store_consistent {embedding_model : SentenceTransformer}
    (self : rag.RAGManager) : Prop :=
  rag.embeddings self = SentenceTransformer_encode <$> nub (rag.texts self) /\
  length (rag.texts self)
  = (match rag.use_faiss self, rag.index self with
     | true, Some _ => 2
     | _, _ => 1
     end) * length (rag.embeddings self).

(** The total of the counts of a counter. *)
Definition count_sum {A} (c : list (A * nat)) : nat := sum_list (snd <$> c).

(** The tokens of a list of messages, each counted on its own. *)
Definition tokens_of {tokenizer : Tokenizer} (messages : list engine.Message)
    : Z :=
  foldr Z.add 0%Z
    ((fun m => engine.count_tokens (engine.msg_text m)) <$> messages).

(** A text with at least one word. *)
Definition has_words (text : string) : Prop := py.split (py.lower text) <> [].

(** What the loop of [batch_store] keeps true of its accumulators, [self0]
    being the store at entry. *)
Record batch_inv {embedding_model : SentenceTransformer}
    (self0 : rag.RAGManager) (acc : rag.batch_acc) : Prop := {
  inv_template : rag.summarize_prompt_template (rag.acc_self acc)
                 = rag.summarize_prompt_template self0;
  inv_faiss : rag.use_faiss (rag.acc_self acc) = rag.use_faiss self0;
  inv_index : rag.index (rag.acc_self acc) = rag.index self0;
  inv_emb : rag.embeddings (rag.acc_self acc)
            = SentenceTransformer_encode <$> nub (rag.texts (rag.acc_self acc));
  inv_texts_len : length (rag.texts (rag.acc_self acc))
                  = length (rag.texts self0) + length (rag.new_summaries acc);
  inv_emb_len : length (rag.embeddings (rag.acc_self acc))
                = length (rag.embeddings self0) + length (rag.new_summaries acc);
  inv_new : length (rag.new_vectors acc) = length (rag.new_summaries acc);
  inv_stored : Forall (fun s => s ∈ rag.texts (rag.acc_self acc))
                      (rag.new_summaries acc)
}.

(** * Properties *)

(** ** Strings and counters *)

Lemma app_String_r cur c s :
  (cur +:+ String c EmptyString) +:+ s = cur +:+ String c s.
Proof.
  induction cur as [|a cur IH]; [reflexivity |].
  change (String a ((cur +:+ String c EmptyString) +:+ s)
          = String a (cur +:+ String c s)).
  by rewrite IH.
Qed.

Lemma app_empty_r cur : cur +:+ EmptyString = cur.
Proof.
  induction cur as [|a cur IH]; [reflexivity |].
  change (String a (cur +:+ EmptyString) = String a cur). by rewrite IH.
Qed.

Lemma split_from_nil s : forall cur,
  py.split_from cur s = [] -> cur = EmptyString /\ blank s.
Proof.
  induction s as [|c s IH]; intros cur; cbn.
  - case_bool_decide; [intros _; split; [done | constructor] | done].
  - destruct (py.isspace c) eqn:Hc.
    + case_bool_decide as Hcur; [| done].
      intros E. apply IH in E as [_ Hs]. split; [done |]. by constructor.
    + intros E. apply IH in E as [E _]. destruct cur; discriminate.
Qed.

Lemma split_from_blank s : blank s -> py.split_from EmptyString s = [].
Proof.
  induction s as [|c s IH]; intros Hs; cbn; [done |].
  inversion Hs as [|? ? Hc Hs']; subst. rewrite Hc. cbn. auto.
Qed.

Lemma lower_char_space c : py.isspace c = true -> py.lower_char c = c.
Proof.
  destruct c as [[] [] [] [] [] [] [] []]; cbn; intros E;
    try discriminate E; reflexivity.
Qed.

Lemma lower_blank s : blank s -> py.lower s = s.
Proof.
  induction s as [|c s IH]; intros Hs; cbn; [done |].
  inversion Hs; subst. rewrite lower_char_space, IH; done.
Qed.

Lemma split_lower_nil text :
  py.split text = [] -> py.split (py.lower text) = [].
Proof.
  intros E. apply split_from_nil in E as [_ Hb]. rewrite lower_blank by done.
  by apply split_from_blank.
Qed.

Lemma split_on_from_blank sep s :
  py.isspace sep = false -> blank s ->
  forall cur, py.split_on_from sep cur s = [cur +:+ s].
Proof.
  intros Hsep. induction s as [|c s IH]; intros Hs cur; cbn.
  - by rewrite app_empty_r.
  - inversion Hs as [|? ? Hc Hs']; subst.
    case_bool_decide as E; [congruence |].
    rewrite IH by done. by rewrite app_String_r.
Qed.

Lemma lstrip_blank s : blank s -> py.lstrip s = EmptyString.
Proof.
  induction s as [|c s IH]; intros Hs; cbn; [done |].
  inversion Hs as [|? ? Hc Hs']; subst. rewrite Hc. auto.
Qed.

Lemma strip_blank s : blank s -> py.strip s = EmptyString.
Proof.
  intros Hs. unfold py.strip. rewrite (lstrip_blank s) by done. reflexivity.
Qed.

Lemma slice_nil {A} i j : py.slice (@nil A) i j = [].
Proof. unfold py.slice. by rewrite drop_nil, take_nil. Qed.

Lemma fmap_const_replicate {A B} (b : B) (l : list A) :
  (fun _ => b) <$> l = replicate (length l) b.
Proof. induction l; cbn; congruence. Qed.

Lemma counter_replicate `{EqDecision A} (x : A) m c :
  fold_left (fun c y => py.counter_add y c) (replicate m x) [(x, c)]
  = [(x, c + m)].
Proof.
  revert c. induction m as [|m IH]; intros c; cbn.
  - do 2 f_equal. lia.
  - rewrite bool_decide_eq_true_2 by done. rewrite IH. do 2 f_equal. lia.
Qed.

Lemma Counter_replicate `{EqDecision A} (x : A) m :
  py.Counter (replicate (S m) x) = [(x, S m)].
Proof. unfold py.Counter. cbn. apply counter_replicate. Qed.

(** ** Entropy measures *)

Lemma log2_1 : entropy.log2 1 = 0%R.
Proof. unfold entropy.log2. rewrite ln_1. unfold Rdiv. apply Rmult_0_l. Qed.

(** A distribution concentrated on one value has entropy 0. *)
Lemma shannon_all n : entropy.shannon [S n] (S n) = 0%R.
Proof.
  unfold entropy.shannon. cbn [fold_left].
  replace (INR (S n) / INR (S n))%R with 1%R.
  - rewrite log2_1. lra.
  - field. apply not_0_INR. lia.
Qed.

Lemma word_entropy_single_token (w : string) :
  py.split (py.lower w) = [py.lower w] ->
  entropy.calculate_word_entropy w = 0%R.
Proof.
  intros E. unfold entropy.calculate_word_entropy. rewrite E.
  exact (shannon_all 0).
Qed.

Lemma ngram_entropy_no_words text n :
  py.split (py.lower text) = [] -> entropy.calculate_ngram_entropy text n = 0%R.
Proof.
  intros E. unfold entropy.calculate_ngram_entropy. rewrite E.
  erewrite (list_fmap_ext _ (fun _ => [])); [| intros; apply slice_nil].
  rewrite fmap_const_replicate, length_replicate.
  destruct (length _) as [|m]; [reflexivity |].
  rewrite Counter_replicate. apply shannon_all.
Qed.

Lemma structural_entropy_blank text :
  blank text -> entropy.calculate_structural_entropy text = 0%R.
Proof.
  intros Hb. unfold entropy.calculate_structural_entropy.
  unfold py.split_on. rewrite split_on_from_blank by done.
  cbn [fmap list_fmap String.app]. rewrite strip_blank by done. reflexivity.
Qed.

Section Entropy.
Context {vectorizer : TfidfVectorizer}.

Lemma semantic_entropy_ok (self : entropy.EntropyEvaluator) texts :
  (entropy.use_tfidf self = true ->
   exists m, fit_transform (entropy.ngram_range self)
               (entropy.max_features self) texts = Ok m) ->
  exists s, entropy.calculate_semantic_entropy self texts = Ok s.
Proof.
  intros Hfit. unfold entropy.calculate_semantic_entropy.
  destruct (entropy.use_tfidf self); cbn; [| eauto].
  case_bool_decide; [eauto |].
  destruct Hfit as [m Hm]; [done |]. rewrite Hm. cbn. eauto.
Qed.

(** What [evaluate_text] returns once the semantic measure and the four
    weight lookups have succeeded. *)
Lemma evaluate_text_ok (self : entropy.EntropyEvaluator) text texts weights
    s ww wn ws wt :
  entropy.calculate_semantic_entropy self (text :: default [] texts) = Ok s ->
  entropy.weights_or_default weights !! "word" = Some ww ->
  entropy.weights_or_default weights !! "ngram" = Some wn ->
  entropy.weights_or_default weights !! "semantic" = Some ws ->
  entropy.weights_or_default weights !! "structural" = Some wt ->
  entropy.evaluate_text self text texts weights =
  Ok {| entropy.word_entropy := entropy.calculate_word_entropy text;
        entropy.ngram_entropy := entropy.calculate_ngram_entropy text 2;
        entropy.semantic_entropy := s;
        entropy.structural_entropy := entropy.calculate_structural_entropy text;
        entropy.weighted_entropy :=
          (ww * entropy.calculate_word_entropy text +
           wn * entropy.calculate_ngram_entropy text 2 +
           ws * s + wt * entropy.calculate_structural_entropy text)%R |}.
Proof.
  intros Hs Hw Hn Hsem Hst. unfold entropy.evaluate_text, py.dict_getitem.
  rewrite Hs, Hw, Hn, Hsem, Hst. reflexivity.
Qed.

Lemma evaluate_text_missing_key (self : entropy.EntropyEvaluator) text texts
    weights s :
  entropy.calculate_semantic_entropy self (text :: default [] texts) = Ok s ->
  entropy.weights_or_default weights !! "word" = None \/
  entropy.weights_or_default weights !! "ngram" = None \/
  entropy.weights_or_default weights !! "semantic" = None \/
  entropy.weights_or_default weights !! "structural" = None ->
  entropy.evaluate_text self text texts weights = Raise KeyError.
Proof.
  intros Hs Hmiss. unfold entropy.evaluate_text, py.dict_getitem. rewrite Hs.
  cbn [mbind result_bind].
  destruct (_ !! "word"); [| done].
  destruct (_ !! "ngram"); [| done].
  destruct (_ !! "semantic"); [| done].
  destruct (_ !! "structural"); [| done].
  destruct Hmiss as [? | [? | [? | ?]]]; discriminate.
Qed.

(** What holds of a text without tokens (the empty text, or white space
    only): its word, n-gram and structural entropy are 0, the semantic
    measure over an empty list of texts is 0, and with TF-IDF switched off
    [evaluate_text] returns the profile whose five entries are 0. *)
Theorem entropy_no_tokens_zero (self : entropy.EntropyEvaluator)
    (text : string) (n : Z) :
  py.split text = [] ->
  entropy.calculate_word_entropy text = 0%R /\
  entropy.calculate_ngram_entropy text n = 0%R /\
  entropy.calculate_structural_entropy text = 0%R /\
  entropy.calculate_semantic_entropy self [] = Ok 0%R /\
  (entropy.use_tfidf self = false ->
   forall texts,
     exists p, entropy.evaluate_text self text texts None = Ok p /\
       entropy.word_entropy p = 0%R /\ entropy.ngram_entropy p = 0%R /\
       entropy.semantic_entropy p = 0%R /\
       entropy.structural_entropy p = 0%R /\
       entropy.weighted_entropy p = 0%R).
Proof.
  intros E. pose proof (split_lower_nil _ E) as El.
  apply split_from_nil in E as [_ Hb].
  assert (entropy.calculate_word_entropy text = 0%R) as Hword.
  { unfold entropy.calculate_word_entropy. by rewrite El. }
  pose proof (ngram_entropy_no_words text n El) as Hngram.
  pose proof (ngram_entropy_no_words text 2 El) as Hbigram.
  pose proof (structural_entropy_blank text Hb) as Hstruct.
  repeat split; try done.
  - unfold entropy.calculate_semantic_entropy.
    by destruct (entropy.use_tfidf self).
  - intros Hoff texts. eexists. split.
    + apply (evaluate_text_ok _ _ _ None 0%R 0.3%R 0.2%R 0.3%R 0.2%R);
        [| reflexivity ..].
      unfold entropy.calculate_semantic_entropy. by rewrite Hoff.
    + cbn. rewrite Hword, Hbigram, Hstruct. repeat split; try done. lra.
Qed.

(** C7, as amended: on a text for which the semantic measure returns a
    value [s] (the vectorizer accepts it), [evaluate_text] takes the weights
    all or nothing. With no dictionary, or an empty one, the sum uses the
    defaults 0.3, 0.2, 0.3 and 0.2; with a dictionary holding the four keys
    it uses the caller's four values; a non-empty dictionary that lacks one
    of the four keys makes it raise [KeyError]. *)
Theorem evaluate_text_weights_all_or_default (self : entropy.EntropyEvaluator)
    (text : string) (texts : option (list string)) (s : R) :
  entropy.calculate_semantic_entropy self (text :: default [] texts) = Ok s ->
  (forall weights, weights = None \/ weights = Some ∅ ->
     exists p, entropy.evaluate_text self text texts weights = Ok p /\
       entropy.weighted_entropy p =
         (0.3 * entropy.calculate_word_entropy text +
          0.2 * entropy.calculate_ngram_entropy text 2 +
          0.3 * s + 0.2 * entropy.calculate_structural_entropy text)%R) /\
  (forall (w : gmap string R) ww wn ws wt,
     w !! "word" = Some ww -> w !! "ngram" = Some wn ->
     w !! "semantic" = Some ws -> w !! "structural" = Some wt ->
     exists p, entropy.evaluate_text self text texts (Some w) = Ok p /\
       entropy.weighted_entropy p =
         (ww * entropy.calculate_word_entropy text +
          wn * entropy.calculate_ngram_entropy text 2 +
          ws * s + wt * entropy.calculate_structural_entropy text)%R) /\
  (forall w : gmap string R, size w <> 0 ->
     w !! "word" = None \/ w !! "ngram" = None \/
     w !! "semantic" = None \/ w !! "structural" = None ->
     entropy.evaluate_text self text texts (Some w) = Raise KeyError).
Proof.
  intros Hs. split; [| split].
  - intros weights Hw.
    assert (entropy.weights_or_default weights = entropy.default_weights) as E.
    { destruct Hw as [-> | ->]; reflexivity. }
    eexists. split.
    + apply (evaluate_text_ok _ _ _ _ s 0.3%R 0.2%R 0.3%R 0.2%R);
        [done | by rewrite E ..].
    + reflexivity.
  - intros w ww wn ws wt Hw Hn Hsem Hst.
    assert (entropy.weights_or_default (Some w) = w) as E.
    { unfold entropy.weights_or_default. case_bool_decide as Hz; [| done].
      apply map_size_empty_iff in Hz. subst w. by rewrite lookup_empty in Hw. }
    eexists. split.
    + apply (evaluate_text_ok _ _ _ _ s ww wn ws wt); [done | by rewrite E ..].
    + reflexivity.
  - intros w Hsize Hmiss. apply (evaluate_text_missing_key _ _ _ _ s Hs).
    unfold entropy.weights_or_default. by rewrite bool_decide_eq_false_2.
Qed.

End Entropy.

Lemma entropy_no_tokens_zero_witness :
  py.split "  " = [] /\
  entropy.calculate_word_entropy "  " = 0%R /\
  entropy.calculate_ngram_entropy "  " 2 = 0%R /\
  entropy.calculate_structural_entropy "  " = 0%R /\
  entropy.calculate_semantic_entropy
    (vectorizer := doubles.exact_match_vectorizer)
    entropy.EntropyEvaluator_init [] = Ok 0%R.
Proof.
  split; [reflexivity |].
  pose proof (entropy_no_tokens_zero
                (vectorizer := doubles.exact_match_vectorizer)
                entropy.EntropyEvaluator_init "  " 2 eq_refl)
    as (Hword & Hngram & Hstruct & Hsem & _).
  auto.
Defined.

Lemma evaluate_text_weights_all_or_default_witness :
  exists s,
    entropy.calculate_semantic_entropy
      (vectorizer := doubles.exact_match_vectorizer)
      entropy.EntropyEvaluator_init ("ab cd" :: default [] None) = Ok s /\
    ((forall weights, weights = None \/ weights = Some ∅ ->
        exists p,
          entropy.evaluate_text (vectorizer := doubles.exact_match_vectorizer)
            entropy.EntropyEvaluator_init "ab cd" None weights = Ok p /\
          entropy.weighted_entropy p =
            (0.3 * entropy.calculate_word_entropy "ab cd" +
             0.2 * entropy.calculate_ngram_entropy "ab cd" 2 +
             0.3 * s + 0.2 * entropy.calculate_structural_entropy "ab cd")%R) /\
     (forall (w : gmap string R) ww wn ws wt,
        w !! "word" = Some ww -> w !! "ngram" = Some wn ->
        w !! "semantic" = Some ws -> w !! "structural" = Some wt ->
        exists p,
          entropy.evaluate_text (vectorizer := doubles.exact_match_vectorizer)
            entropy.EntropyEvaluator_init "ab cd" None (Some w) = Ok p /\
          entropy.weighted_entropy p =
            (ww * entropy.calculate_word_entropy "ab cd" +
             wn * entropy.calculate_ngram_entropy "ab cd" 2 +
             ws * s + wt * entropy.calculate_structural_entropy "ab cd")%R) /\
     (forall w : gmap string R, size w <> 0 ->
        w !! "word" = None \/ w !! "ngram" = None \/
        w !! "semantic" = None \/ w !! "structural" = None ->
        entropy.evaluate_text (vectorizer := doubles.exact_match_vectorizer)
          entropy.EntropyEvaluator_init "ab cd" None (Some w) = Raise KeyError)).
Proof.
  eexists. split; [reflexivity |].
  apply (evaluate_text_weights_all_or_default
           (vectorizer := doubles.exact_match_vectorizer)
           entropy.EntropyEvaluator_init "ab cd" None).
  reflexivity.
Defined.

(** C6, the code on the empty text and on a white-space text, with the
    default evaluator: the word, n-gram and structural measures are 0 and
    the semantic measure of an empty list of texts is 0, but the list that
    [evaluate_text] hands to the semantic measure is [[text]], never empty;
    the vectorizer finds no token in it and raises, so the semantic measure
    and [evaluate_text] raise [ValueError] instead of returning 0. *)
Theorem evaluate_text_no_tokens_raises :
  (entropy.calculate_word_entropy EmptyString = 0%R /\
   entropy.calculate_ngram_entropy EmptyString 2 = 0%R /\
   entropy.calculate_structural_entropy EmptyString = 0%R /\
   entropy.calculate_semantic_entropy
     (vectorizer := doubles.exact_match_vectorizer)
     entropy.EntropyEvaluator_init [] = Ok 0%R) /\
  entropy.calculate_semantic_entropy
    (vectorizer := doubles.exact_match_vectorizer)
    entropy.EntropyEvaluator_init [EmptyString] = Raise ValueError /\
  entropy.evaluate_text (vectorizer := doubles.exact_match_vectorizer)
    entropy.EntropyEvaluator_init EmptyString None None = Raise ValueError /\
  entropy.evaluate_text (vectorizer := doubles.exact_match_vectorizer)
    entropy.EntropyEvaluator_init "  " None None = Raise ValueError.
Proof.
  split; [| repeat split; reflexivity].
  destruct (entropy_no_tokens_zero
              (vectorizer := doubles.exact_match_vectorizer)
              entropy.EntropyEvaluator_init EmptyString 2 eq_refl)
    as (Hword & Hngram & Hstruct & Hsem & _).
  auto.
Qed.

(** C7, the claim as stated fails: with the weights [{'word': 1.0}] the
    lookup of ['ngram'] raises, no default is substituted. The text has
    tokens, so the semantic measure has returned before the lookup. *)
Lemma evaluate_text_partial_weights_raises :
  entropy.evaluate_text (vectorizer := doubles.exact_match_vectorizer)
    entropy.EntropyEvaluator_init "ab cd" None (Some {[ "word" := 1%R ]})
  = Raise KeyError.
Proof. reflexivity. Qed.

(** C8, the code at the two strings: the word entropy of ["aaaaaaaaaa"] is
    not smaller than that of ["abcdefghij"]. *)
Lemma word_entropy_repeats_not_smaller :
  ~ (entropy.calculate_word_entropy "aaaaaaaaaa"
     < entropy.calculate_word_entropy "abcdefghij")%R.
Proof.
  rewrite !word_entropy_single_token by reflexivity. lra.
Qed.

(** Each of the two strings is a single white-space delimited token, so
    both have word entropy 0. *)
Theorem word_entropy_single_token_strings :
  entropy.calculate_word_entropy "aaaaaaaaaa" = 0%R /\
  entropy.calculate_word_entropy "abcdefghij" = 0%R.
Proof. split; apply word_entropy_single_token; reflexivity. Qed.

(** ** Classification *)

Lemma mapM_result_ok {A B} (f : A -> result B) (l : list A) :
  (forall x, x ∈ l -> exists y, f x = Ok y) ->
  exists ys, mapM f l = Ok ys /\ length ys = length l.
Proof.
  induction l as [|x l IH]; intros Hf; cbn.
  - by exists [].
  - destruct (Hf x) as [y Hy]; [left |].
    destruct IH as (ys & Hys & Hlen); [intros z Hz; apply Hf; by right |].
    exists (y :: ys). rewrite Hy; cbn. rewrite Hys; cbn. by rewrite Hlen.
Qed.

Lemma distributed_length {A} (l k c : list A) :
  distributed l k c -> length k + length c = length l.
Proof. induction 1; cbn; lia. Qed.

Lemma classify_loop_distributed threshold (batches : list string) :
  forall entropies : list R, length entropies = length batches ->
  distributed batches
    (fst (processor.classify_loop threshold (zip batches entropies)))
    (snd (processor.classify_loop threshold (zip batches entropies))).
Proof.
  induction batches as [|b batches IH]; intros [|e entropies] Hlen;
    try discriminate Hlen; cbn.
  - constructor.
  - injection Hlen as Hlen. specialize (IH entropies Hlen).
    destruct (processor.classify_loop threshold (zip batches entropies))
      as [u l].
    destruct (Rge_dec e threshold); cbn in *; by constructor.
Qed.

Section Classify.
Context {vectorizer : TfidfVectorizer}.

(** Whenever the vectorizer accepts the chunks, [classify_by_entropy]
    returns two lists whose lengths add up to the number of chunks, every
    chunk having gone to exactly one of them. *)
Theorem classify_by_entropy_partition (self : processor.TextProcessor)
    (batches : list string) (threshold : option R) (context_aware : bool) :
  (entropy.use_tfidf (processor.entropy_evaluator self) = true ->
   forall b, b ∈ batches ->
   exists m,
     fit_transform (entropy.ngram_range (processor.entropy_evaluator self))
       (entropy.max_features (processor.entropy_evaluator self))
       (b :: (if context_aware then batches else [])) = Ok m) ->
  exists useful_batches less_useful_batches,
    processor.classify_by_entropy self batches threshold context_aware
      = Ok (useful_batches, less_useful_batches) /\
    length useful_batches + length less_useful_batches = length batches /\
    distributed batches useful_batches less_useful_batches.
Proof.
  intros Hfit. unfold processor.classify_by_entropy.
  edestruct (mapM_result_ok
    (fun batch =>
       entropy_results ← processor.calculate_entropy self batch
                           (if context_aware then Some batches else None);
       Ok (processor.select_entropy self entropy_results)) batches)
    as (entropies & Hmap & Hlen).
  { intros b Hb. unfold processor.calculate_entropy.
    destruct (semantic_entropy_ok (processor.entropy_evaluator self)
                (b :: default [] (if context_aware then Some batches else None)))
      as [s Hs].
    { intros Ht. destruct context_aware; cbn; by apply Hfit. }
    erewrite (evaluate_text_ok _ _ _ None s); [| exact Hs | reflexivity ..].
    cbn. eauto. }
  rewrite Hmap. cbn.
  pose proof (classify_loop_distributed
                (default (processor.entropy_threshold self) threshold)
                batches entropies Hlen) as Hd.
  destruct (processor.classify_loop _ _) as [u l]. cbn in Hd.
  exists u, l. split; [done |]. split; [| done].
  by apply distributed_length.
Qed.

End Classify.

Lemma classify_by_entropy_partition_witness :
  exists useful_batches less_useful_batches,
    processor.classify_by_entropy (vectorizer := doubles.exact_match_vectorizer)
      (processor.TextProcessor_init 10)
      ["aaaaaaaaaa"; "abcdefghij"] (Some 2%R) true
      = Ok (useful_batches, less_useful_batches) /\
    length useful_batches + length less_useful_batches = 2 /\
    distributed ["aaaaaaaaaa"; "abcdefghij"] useful_batches less_useful_batches.
Proof.
  apply (classify_by_entropy_partition
           (vectorizer := doubles.exact_match_vectorizer)
           (processor.TextProcessor_init 10) ["aaaaaaaaaa"; "abcdefghij"]
           (Some 2%R) true).
  intros _ b _. exists [b; "aaaaaaaaaa"; "abcdefghij"].
  unfold fit_transform, doubles.exact_match_vectorizer,
    sklearn.empty_vocabulary.
  cbn [existsb]. destruct (sklearn.has_token b); reflexivity.
Defined.

(** C4, the code at a failing input: a chunk without a token of two or more
    word characters makes the vectorizer raise while the chunk is scored,
    and [classify_by_entropy] passes the [ValueError] on instead of
    returning two lists. *)
Theorem classify_by_entropy_raises_without_token :
  processor.classify_by_entropy (vectorizer := doubles.exact_match_vectorizer)
    (processor.TextProcessor_init 10) ["a b"] (Some 2%R) true
  = Raise ValueError.
Proof. reflexivity. Qed.

(** ** Chunking and the compressor *)

(** Without overlap the sentence-aware loop ends and cuts after a sentence
    end inside the window. *)
Example split_into_batches_no_overlap :
  processor.split_into_batches 3
    {| processor.batch_size := 4; processor.entropy_threshold := 2.5%R;
       processor.overlap_size := 0; processor.entropy_method := "weighted";
       processor.entropy_evaluator := entropy.EntropyEvaluator_init |}
    "Step one. Step two. Step three." true
  = Some (Ok ["Step one. Step two."; "Step three."]).
Proof. reflexivity. Qed.

(** The fixed-size branch is a bounded [for] loop and needs no fuel. *)
Example split_into_batches_fixed_size :
  processor.split_into_batches 0
    {| processor.batch_size := 4; processor.entropy_threshold := 2.5%R;
       processor.overlap_size := 1; processor.entropy_method := "weighted";
       processor.entropy_evaluator := entropy.EntropyEvaluator_init |}
    "a b c d e f g" false
  = Some (Ok ["a b c d"; "d e f g"; "g"]).
Proof. reflexivity. Qed.

(** The case analysis on the budget test of [_recursive_rag_compress], for a
    text known to be over the budget. *)
Ltac over_budget :=
  match goal with
  | |- context [(engine.count_tokens ?t <=? ?limit)%Z] =>
      let Hle := fresh "Hle" in
      destruct (engine.count_tokens t <=? limit)%Z eqn:Hle;
      [apply Z.leb_le in Hle; lia |]
  end.

Lemma scan_back_bound ends n : forall i e,
  processor.scan_back ends n i = Some e -> (e <= py.len ends)%Z.
Proof.
  induction n as [|n IH]; intros i e; cbn; [done |].
  destruct (i <? py.len ends)%Z eqn:Hi; cbn.
  - destruct (default false (ends !! Z.to_nat i)).
    + intros [= <-]. apply Z.ltb_lt in Hi. lia.
    + apply IH.
  - apply IH.
Qed.

(** With a positive overlap the loop of [split_into_batches] never leaves a
    non-empty word list: a window ends at [len(words)] at the latest, so the
    next start, [max(0, end_idx - overlap_size)], is again below
    [len(words)]. *)
Lemma split_loop_stalls (self : processor.TextProcessor) words ends :
  (0 < processor.overlap_size self)%Z -> py.len ends = py.len words ->
  forall fuel start_idx batches,
    (0 <= start_idx < py.len words)%Z ->
    processor.split_loop fuel self words ends start_idx batches = None.
Proof.
  intros Hov Hends. induction fuel as [|fuel IH];
    intros start_idx batches Hstart; cbn [processor.split_loop]; [done |].
  destruct (start_idx <? py.len words)%Z eqn:Hlt;
    [| apply Z.ltb_ge in Hlt; lia].
  apply IH.
  destruct (processor.scan_back _ _ _) as [e|] eqn:Hscan.
  - apply scan_back_bound in Hscan. lia.
  - lia.
Qed.

Lemma split_into_batches_stalls (self : processor.TextProcessor) text :
  (0 < processor.overlap_size self)%Z -> py.split text <> [] ->
  forall fuel, processor.split_into_batches fuel self text true = None.
Proof.
  intros Hov Hne fuel. unfold processor.split_into_batches.
  rewrite split_loop_stalls; [done | done | | ].
  - unfold py.len. by rewrite length_fmap.
  - unfold py.len. destruct (py.split text); [done | cbn; lia].
Qed.

Section Compressor.
Context {tokenizer : Tokenizer} {model : LLMInterface}
  {embedding_model : SentenceTransformer} {faiss_lib : Faiss}
  {vectorizer : TfidfVectorizer}.

Lemma compress_within_budget (self : engine.KimiEngine) text target fuel :
  (engine.count_tokens text <= target)%Z ->
  engine._recursive_rag_compress (S fuel) self text target = Some (Ok text).
Proof.
  intros Hle. cbn [engine._recursive_rag_compress].
  by rewrite (proj2 (Z.leb_le _ _) Hle).
Qed.

Lemma compress_stalls (self : engine.KimiEngine) text target :
  (target < engine.count_tokens text)%Z ->
  (0 < processor.overlap_size (engine.processor self))%Z ->
  py.split text <> [] ->
  forall fuel, engine._recursive_rag_compress fuel self text target = None.
Proof.
  intros Hover Hov Hne [|fuel]; cbn [engine._recursive_rag_compress]; [done |].
  over_budget. by rewrite split_into_batches_stalls.
Qed.

(** Whatever the fuel, an over-budget text never comes back as a string:
    the lookup of [rag_store] raises once the chunks are classified. *)
Lemma compress_over_budget_no_string (self : engine.KimiEngine) text target :
  (target < engine.count_tokens text)%Z ->
  forall fuel s,
    engine._recursive_rag_compress fuel self text target <> Some (Ok s).
Proof.
  intros Hover [|fuel] s; cbn [engine._recursive_rag_compress]; [done |].
  over_budget.
  destruct (processor.split_into_batches _ _ _ _) as [[batches|e]|];
    [| done | done].
  destruct (processor.classify_by_entropy _ _ _ _) as [[u l]|e]; done.
Qed.

End Compressor.

Section CompressorRuns.
Context {model : LLMInterface} {embedding_model : SentenceTransformer}
  {faiss_lib : Faiss} {vectorizer : TfidfVectorizer}.

(** C1, the code at two over-budget inputs (character tokens, budget 1,
    default engine): on ["a b"] the run never ends, whatever the fuel; on
    the two-space text it ends by raising [AttributeError]. In neither case
    is a string within the budget returned. *)
Theorem recursive_rag_compress_never_fits :
  (forall fuel,
     engine._recursive_rag_compress (tokenizer := llm_interface.SimpleTokenizer)
       fuel doubles.default_engine "a b" 1 = None) /\
  (forall fuel,
     engine._recursive_rag_compress (tokenizer := llm_interface.SimpleTokenizer)
       (S (S fuel)) doubles.default_engine "  " 1
     = Some (Raise AttributeError)).
Proof.
  split; intros fuel.
  - apply compress_stalls; [reflexivity | reflexivity | discriminate].
  - reflexivity.
Qed.

End CompressorRuns.

(** ** The memory store *)

Section Store.
Context {model : LLMInterface} {embedding_model : SentenceTransformer}
  {faiss_lib : Faiss}.

(** C10: [batch_store] on the empty list returns the empty list and the
    store it was given: summaries, embeddings and index are untouched. *)
Theorem batch_store_empty (self : rag.RAGManager) :
  rag.batch_store self [] = ([], self).
Proof. reflexivity. Qed.

(** A summary that is already stored is returned and nothing is added. *)
Lemma store_text_duplicate (self : rag.RAGManager) (text : string) :
  py.contains (rag.summarize_text self text) (rag.texts self) = true ->
  rag.store_text self text = (rag.summarize_text self text, self).
Proof. intros Hin. unfold rag.store_text. by rewrite Hin. Qed.

(** C3, the code on a new store with the index in use: one [store_text]
    leaves the summary twice in the summary list, next to one embedding. *)
Theorem store_text_appends_summary_twice (template : string * string)
    (text : string) :
  fst (rag.store_text (rag.RAGManager_init true template) text)
    = rag.summarize_text (rag.RAGManager_init true template) text /\
  rag.texts (snd (rag.store_text (rag.RAGManager_init true template) text))
    = [rag.summarize_text (rag.RAGManager_init true template) text;
       rag.summarize_text (rag.RAGManager_init true template) text] /\
  rag.embeddings (snd (rag.store_text (rag.RAGManager_init true template) text))
    = [SentenceTransformer_encode
         (rag.summarize_text (rag.RAGManager_init true template) text)].
Proof.
  unfold rag.store_text. cbn. unfold rag.index_add_logged.
  destruct (IndexFlatL2_add _ _); cbn; auto.
Qed.

(** [batch_store] has the same second append, [texts.extend(new_summaries)]. *)
Lemma batch_store_appends_summary_twice (template : string * string)
    (text : string) :
  rag.texts (snd (rag.batch_store (rag.RAGManager_init true template) [text]))
  = [rag.summarize_text (rag.RAGManager_init true template) text;
     rag.summarize_text (rag.RAGManager_init true template) text].
Proof.
  unfold rag.batch_store. cbn. unfold rag.index_add_logged.
  destruct (IndexFlatL2_add _ _); reflexivity.
Qed.

End Store.

Section Retrieve.
Context {embedding_model : SentenceTransformer} {faiss_lib : Faiss}
  {numeric : Numeric}.

Lemma retrieve_empty_store (self : rag.RAGManager) query top_k :
  rag.texts self = [] -> rag.retrieve self query top_k = Ok [].
Proof. intros E. unfold rag.retrieve. by rewrite E. Qed.

(** [retrieve] never reads the similarity threshold. *)
Lemma retrieve_threshold_irrelevant (self : rag.RAGManager) t query top_k :
  rag.retrieve (rag.set_similarity_threshold self t) query top_k
  = rag.retrieve self query top_k.
Proof. reflexivity. Qed.

End Retrieve.

Section RetrieveRuns.
Context {numeric : Numeric}.

(** C2, the code after one [store_text("hello world")], queried with
    ["hi"], [top_k = 3]: the only indexed vector lies at squared distance
    1936, a similarity [1 / (1 + 1936)] below the threshold 0.7, and yet
    [retrieve] returns it; what it returns is the stored summary (twice),
    not the source text. *)
Theorem retrieve_keeps_results_below_threshold :
  rag.retrieve (embedding_model := doubles.length_embedding)
    (faiss_lib := faiss.IndexFlatL2) doubles.one_text_store "hi" 3
  = Ok ["[Dummy Response to: Summarize: hello world...]";
        "[Dummy Response to: Summarize: hello world...]"] /\
  rag.index doubles.one_text_store = Some [[46%Q]] /\
  faiss.l2_sqr
    (SentenceTransformer_encode
       (SentenceTransformer := doubles.length_embedding) "hi") [46%Q]
  = 1936%Q /\
  (1 / (1 + 1936) < rag.similarity_threshold doubles.one_text_store)%Q.
Proof. repeat split; vm_compute; reflexivity. Qed.

End RetrieveRuns.

Section RetrieveAfterOneStore.
Context {model : LLMInterface} {embedding_model : SentenceTransformer}
  {numeric : Numeric}.

Lemma contains_head `{EqDecision A} (x : A) l : py.contains x (x :: l) = true.
Proof. cbn. by rewrite bool_decide_eq_true_2. Qed.

(** The labels of a two-slot search over one indexed vector are 0 and the
    filler -1; [texts[-1]] passes the guard [idx < len(self.texts)]. *)
Lemma faiss_results_one_vector (s : string) :
  rag.faiss_results [s; s] [0%Z; (-1)%Z] = Ok [s; s].
Proof. cbv -[py.contains]. rewrite !contains_head. reflexivity. Qed.

(** C5, the code after one [store_text] on a new store, for every model,
    embedder, text and query, with the flat index: one record is stored
    (one embedding, one indexed vector), and [retrieve] with [top_k = 3]
    returns two results. *)
Theorem retrieve_exceeds_record_count (template : string * string)
    (text query : string) :
  let fresh := rag.RAGManager_init true template in
  let summary := rag.summarize_text fresh text in
  let store :=
    snd (rag.store_text (faiss_lib := faiss.IndexFlatL2) fresh text) in
  rag.embeddings store = [SentenceTransformer_encode summary] /\
  rag.index store = Some [SentenceTransformer_encode summary] /\
  rag.retrieve (faiss_lib := faiss.IndexFlatL2) store query 3
  = Ok [summary; summary].
Proof.
  intros fresh summary store.
  split; [reflexivity |]. split; [reflexivity |].
  unfold rag.retrieve, store.
  cbv -[rag.faiss_results SentenceTransformer_encode generate py.strip
        String.app].
  by rewrite faiss_results_one_vector.
Qed.

End RetrieveAfterOneStore.

(** ** Context sampling *)

(** Once a caller has assigned [current_query] from outside, the strategy
    ranks the pool by overlap with it. *)
Example relevance_sampling_with_query :
  framework._relevance_based_sampling
    {| framework.current_query := Some "a b" |} "a x" ["a b"; "c"] 2
  = Ok ["a b"; "a x"].
Proof. reflexivity. Qed.

(** C9, the code on every input: a generator as [__init__] builds it has no
    [current_query], so the relevance strategy raises [AttributeError]
    instead of returning a ranking. *)
Theorem relevance_sampling_raises (useful_context : string)
    (rag_context : list string) (num_samples : Z) :
  framework._relevance_based_sampling framework.FrameworkGenerator_init
    useful_context rag_context num_samples
  = Raise AttributeError.
Proof. reflexivity. Qed.

(** ** Word lists and chunking, continued *)

Lemma chars_app a b : py.chars (a +:+ b) = py.chars a ++ py.chars b.
Proof.
  induction a as [|c a IH]; [reflexivity |].
  change (c :: py.chars (a +:+ b) = c :: (py.chars a ++ py.chars b)). by rewrite IH.
Qed.

Lemma split_from_words s : forall cur,
  Forall (fun c => py.isspace c = false) (py.chars cur) ->
  Forall is_word (py.split_from cur s).
Proof.
  induction s as [|c s IH]; intros cur Hcur; cbn.
  - case_bool_decide; [constructor |]. repeat constructor; done.
  - destruct (py.isspace c) eqn:Hc.
    + case_bool_decide.
      * apply IH. constructor.
      * constructor; [done |]. apply IH. constructor.
    + apply IH. rewrite chars_app. apply Forall_app. split; [done |].
      cbn. by repeat constructor.
Qed.

Lemma split_words s : Forall is_word (py.split s).
Proof. apply split_from_words. constructor. Qed.

(* reading a space-free run *)
Lemma split_from_run w : forall cur rest,
  Forall (fun c => py.isspace c = false) (py.chars w) ->
  py.split_from cur (w +:+ rest) = py.split_from (cur +:+ w) rest.
Proof.
  induction w as [|c w IH]; intros cur rest Hw.
  - by rewrite app_empty_r.
  - change (String c w +:+ rest) with (String c (w +:+ rest)).
    inversion Hw as [|? ? Hc Hw']; subst. cbn [py.split_from]. rewrite Hc.
    rewrite IH by done. by rewrite app_String_r.
Qed.

Lemma split_join ws : Forall is_word ws -> py.split (py.join " " ws) = ws.
Proof.
  unfold py.split. induction ws as [|w ws IH]; intros Hws; [reflexivity |].
  inversion Hws as [|? ? [Hne Hw] Hws']; subst.
  destruct ws as [|w' ws].
  - cbn [py.join]. rewrite <- (app_empty_r w) at 1.
    rewrite split_from_run by done. cbn. by rewrite bool_decide_eq_false_2.
  - change (py.join " " (w :: w' :: ws)) with (w +:+ " " +:+ py.join " " (w' :: ws)).
    rewrite split_from_run by done.
    change (" " +:+ py.join " " (w' :: ws)) with (String " " (py.join " " (w' :: ws))).
    cbn [py.split_from]. change (py.isspace " ") with true. cbn match.
    rewrite bool_decide_eq_false_2 by done. by rewrite IH.
Qed.

Lemma scan_back_range ends n : forall i e,
  processor.scan_back ends n i = Some e ->
  (i - Z.of_nat n + 1 < e <= i + 1)%Z /\ (e <= py.len ends)%Z.
Proof.
  induction n as [|n IH]; intros i e; cbn [processor.scan_back]; [done |].
  destruct (i <? py.len ends)%Z eqn:Hi; cbn [andb].
  - destruct (default false (ends !! Z.to_nat i)).
    + intros [= <-]. apply Z.ltb_lt in Hi. lia.
    + intros H. apply IH in H. lia.
  - intros H. apply IH in H. lia.
Qed.

Lemma slice_take_drop {A} (l : list A) (a b : Z) :
  (0 <= a <= b)%Z -> (b <= py.len l)%Z ->
  py.slice l a b = take (Z.to_nat (b - a)) (drop (Z.to_nat a) l).
Proof.
  intros Ha Hb. unfold py.slice, py.slice_bound.
  destruct (a <? 0)%Z eqn:E1; [apply Z.ltb_lt in E1; lia |].
  destruct (b <? 0)%Z eqn:E2; [apply Z.ltb_lt in E2; lia |].
  by rewrite !Z.min_l by lia.
Qed.

Lemma split_loop_no_overlap (self : processor.TextProcessor) words ends :
  processor.overlap_size self = 0%Z -> (0 < processor.batch_size self)%Z ->
  py.len ends = py.len words ->
  forall fuel start_idx batches,
    (0 <= start_idx <= py.len words)%Z ->
    (py.len words - start_idx < Z.of_nat fuel)%Z ->
    exists parts : list (list string),
      processor.split_loop fuel self words ends start_idx batches
        = Some (batches ++ (py.join " " <$> parts)) /\
      concat parts = drop (Z.to_nat start_idx) words /\
      Forall (fun p => (1 <= py.len p <= processor.batch_size self)%Z) parts.
Proof.
  intros Hov Hbs Hends. induction fuel as [|fuel IH];
    intros start_idx batches Hstart Hfuel; [lia |].
  cbn [processor.split_loop].
  destruct (start_idx <? py.len words)%Z eqn:Hlt.
  - apply Z.ltb_lt in Hlt.
    set (hi := Z.min (start_idx + processor.batch_size self) (py.len words)).
    assert (start_idx < hi <= py.len words)%Z as Hhi by (unfold hi; lia).
    assert (hi <= start_idx + processor.batch_size self)%Z as Hhi' by (unfold hi; lia).
    set (end_idx := match processor.scan_back ends (Z.to_nat (hi - 1 - start_idx)) (hi - 1) with
                    | Some e => e | None => hi end).
    assert (start_idx < end_idx <= hi)%Z as Hend.
    { unfold end_idx. destruct (processor.scan_back _ _ _) as [e|] eqn:Hscan; [| lia].
      apply scan_back_range in Hscan. lia. }
    rewrite Hov, Z.sub_0_r, Z.max_r by lia.
    destruct (IH end_idx (batches ++ [py.join " " (py.slice words start_idx end_idx)]))
      as (parts & Hrun & Hcat & Hparts); [lia | lia |].
    exists (py.slice words start_idx end_idx :: parts).
    split; [| split].
    + rewrite Hrun. by rewrite <- app_assoc.
    + cbn [concat]. rewrite Hcat. rewrite slice_take_drop by lia.
      replace (Z.to_nat end_idx) with (Z.to_nat start_idx + Z.to_nat (end_idx - start_idx)) by lia.
      rewrite <- drop_drop. apply take_drop.
    + constructor; [| done]. rewrite slice_take_drop by lia.
      unfold py.len in *. rewrite length_take, length_drop. lia.
  - apply Z.ltb_ge in Hlt. exists []. cbn. rewrite app_nil_r.
    split; [done |]. split; [| constructor].
    rewrite drop_ge; [done |]. unfold py.len in *. lia.
Qed.

(** X1: with [overlap_size = 0] and a positive [batch_size], the
    sentence-aware mode of [split_into_batches] ends and partitions the
    words: the chunks, split again, give back the words of the text in
    order, and every chunk holds between one and [batch_size] words. *)
Theorem split_into_batches_no_overlap_partitions (self : processor.TextProcessor)
    (text : string) (fuel : nat) :
  processor.overlap_size self = 0%Z -> (0 < processor.batch_size self)%Z ->
  length (py.split text) < fuel ->
  exists batches,
    processor.split_into_batches fuel self text true = Some (Ok batches) /\
    concat (py.split <$> batches) = py.split text /\
    Forall (fun b => (1 <= py.len (py.split b) <= processor.batch_size self)%Z) batches.
Proof.
  intros Hov Hbs Hfuel. unfold processor.split_into_batches.
  destruct (split_loop_no_overlap self (py.split text)
              ((fun word => py.endswith word "." || py.endswith word "!" || py.endswith word "?")
                 <$> py.split text) Hov Hbs) with (fuel := fuel) (start_idx := 0%Z) (batches := @nil string)
    as (parts & Hrun & Hcat & Hparts).
  { unfold py.len. by rewrite length_fmap. }
  { unfold py.len. lia. }
  { unfold py.len. lia. }
  rewrite Hrun. cbn [app fmap option_fmap option_map].
  assert (Forall is_word (concat parts)) as Hw.
  { rewrite Hcat. cbn. apply split_words. }
  assert (py.split <$> (py.join " " <$> parts) = parts) as Hrt.
  { clear -Hw. induction parts as [|p parts IH]; [done |].
    cbn in Hw. apply Forall_app in Hw as [Hp Hw].
    cbn. rewrite split_join by done. by rewrite IH. }
  eexists. split; [reflexivity |]. split.
  - rewrite Hrt. by rewrite Hcat.
  - clear -Hparts Hw. induction parts as [|p parts IH]; [constructor |].
    cbn in Hw. apply Forall_app in Hw as [Hp Hw].
    inversion Hparts; subst. constructor; [| by apply IH].
    cbn. by rewrite split_join.
Qed.

Lemma split_into_batches_no_overlap_partitions_witness :
  exists batches,
    processor.split_into_batches 7
      {| processor.batch_size := 4; processor.entropy_threshold := 2.5%R;
         processor.overlap_size := 0; processor.entropy_method := "weighted";
         processor.entropy_evaluator := entropy.EntropyEvaluator_init |}
      "Step one. Step two. Step three." true = Some (Ok batches) /\
    concat (py.split <$> batches) = py.split "Step one. Step two. Step three." /\
    Forall (fun b => (1 <= py.len (py.split b) <= 4)%Z) batches.
Proof.
  apply (split_into_batches_no_overlap_partitions
           {| processor.batch_size := 4; processor.entropy_threshold := 2.5%R;
              processor.overlap_size := 0; processor.entropy_method := "weighted";
              processor.entropy_evaluator := entropy.EntropyEvaluator_init |}
           "Step one. Step two. Step three." 7);
    [reflexivity | reflexivity | vm_compute; lia].
Defined.

(** X2: in fixed-size mode a [batch_size] that does not exceed
    [overlap_size] loses the text: the step of the [range] is then zero,
    which raises [ValueError], or negative, which gives no chunk at all. *)
Theorem split_into_batches_fixed_degenerate (self : processor.TextProcessor)
    (text : string) (fuel : nat) :
  (processor.batch_size self <= processor.overlap_size self)%Z ->
  processor.split_into_batches fuel self text false
  = Some (if (processor.batch_size self =? processor.overlap_size self)%Z
          then Raise ValueError else Ok []).
Proof.
  intros Hle. unfold processor.split_into_batches, processor.range_step.
  destruct (processor.batch_size self =? processor.overlap_size self)%Z eqn:E.
  - apply Z.eqb_eq in E. replace (_ - _)%Z with 0%Z by lia. reflexivity.
  - apply Z.eqb_neq in E.
    destruct (_ - _ =? 0)%Z eqn:E0; [apply Z.eqb_eq in E0; lia |].
    destruct (_ - _ <? 0)%Z eqn:E1; [reflexivity | apply Z.ltb_ge in E1; lia].
Qed.

Lemma split_into_batches_fixed_degenerate_witness :
  processor.split_into_batches 0 (processor.TextProcessor_init 10)
    "one two three" false = Some (Ok []).
Proof.
  apply (split_into_batches_fixed_degenerate (processor.TextProcessor_init 10)
           "one two three" 0).
  cbn. lia.
Defined.

Lemma slice_lookup {A} (l : list A) (a b : Z) (i : nat) :
  (0 <= a)%Z -> (a + Z.of_nat i < b)%Z ->
  py.slice l a b !! i = l !! (Z.to_nat a + i).
Proof.
  intros Ha Hb. unfold py.slice, py.slice_bound.
  destruct (a <? 0)%Z eqn:E1; [apply Z.ltb_lt in E1; lia |].
  destruct (b <? 0)%Z eqn:E2; [apply Z.ltb_lt in E2; lia |].
  destruct (decide (Z.to_nat a + i < length l)) as [Hin | Hout].
  - rewrite lookup_take_lt by (unfold py.len; lia).
    rewrite lookup_drop. f_equal. unfold py.len. lia.
  - rewrite (lookup_ge_None_2 l) by lia.
    apply lookup_ge_None_2. rewrite length_take, length_drop. unfold py.len. lia.
Qed.

Lemma range_lookup n k : k < Z.to_nat n -> py.range n !! k = Some (Z.of_nat k).
Proof.
  intros Hk. unfold py.range. rewrite list_lookup_fmap, lookup_seq_lt by done. done.
Qed.

Lemma slice_words (ws : list string) a b :
  Forall is_word ws -> Forall is_word (py.slice ws a b).
Proof. intros H. unfold py.slice. by apply Forall_take, Forall_drop. Qed.

(** X3: in fixed-size mode with [0 <= overlap_size < batch_size] no word is
    lost: the word at position [j] of the text is the word at position
    [j mod step] of chunk [j / step], where [step] is
    [batch_size - overlap_size]. *)
Theorem split_into_batches_fixed_covers (self : processor.TextProcessor)
    (text : string) (fuel : nat) :
  (0 <= processor.overlap_size self < processor.batch_size self)%Z ->
  exists batches,
    processor.split_into_batches fuel self text false = Some (Ok batches) /\
    forall (j : nat) (w : string),
      py.split text !! j = Some w ->
      let step := Z.to_nat (processor.batch_size self - processor.overlap_size self) in
      exists b, batches !! (j / step) = Some b /\
                py.split b !! (j mod step) = Some w.
Proof.
  intros Hcfg. unfold processor.split_into_batches, processor.range_step.
  set (bs := processor.batch_size self). set (ov := processor.overlap_size self).
  fold bs ov in Hcfg.
  destruct (bs - ov =? 0)%Z eqn:E0; [apply Z.eqb_eq in E0; lia |].
  destruct (bs - ov <? 0)%Z eqn:E1; [apply Z.ltb_lt in E1; lia |].
  cbn [mbind result_bind]. eexists. split; [reflexivity |].
  intros j w Hj. set (step := Z.to_nat (bs - ov)).
  assert (0 < step) as Hstep by (unfold step; lia).
  pose proof (lookup_lt_Some _ _ _ Hj) as Hjlt.
  pose proof (Nat.div_mod_eq j step) as Hdm.
  pose proof (Nat.mod_upper_bound j step ltac:(lia)) as Hmod.
  set (k := j / step) in *. set (r := j mod step) in *.
  assert (Z.of_nat step = bs - ov)%Z as Hs by (unfold step; lia).
  assert (Z.of_nat j = Z.of_nat k * (bs - ov) + Z.of_nat r)%Z as Hj'.
  { rewrite <- Hs. lia. }
  assert (k < Z.to_nat ((py.len (py.split text) + (bs - ov) - 1) / (bs - ov))) as Hk.
  { apply Nat2Z.inj_lt. rewrite Z2Nat.id.
    2:{ apply Z.div_pos; unfold py.len; lia. }
    assert (Z.of_nat k + 1 <= (py.len (py.split text) + (bs - ov) - 1) / (bs - ov))%Z;
      [| lia].
    apply Z.div_le_lower_bound; [lia |]. unfold py.len. nia. }
  rewrite !list_lookup_fmap, range_lookup by done. cbn [fmap option_fmap option_map].
  eexists. split; [reflexivity |].
  rewrite split_join by (apply slice_words, split_words).
  rewrite slice_lookup by nia.
  rewrite <- Hj. f_equal. nia.
Qed.

Lemma split_into_batches_fixed_covers_witness :
  exists batches,
    processor.split_into_batches 0
      {| processor.batch_size := 3; processor.entropy_threshold := 2.5%R;
         processor.overlap_size := 1; processor.entropy_method := "weighted";
         processor.entropy_evaluator := entropy.EntropyEvaluator_init |}
      "a b c d e" false = Some (Ok batches) /\
    forall (j : nat) (w : string),
      py.split "a b c d e" !! j = Some w ->
      exists b, batches !! (j / 2) = Some b /\
                py.split b !! (j mod 2) = Some w.
Proof.
  apply (split_into_batches_fixed_covers
           {| processor.batch_size := 3; processor.entropy_threshold := 2.5%R;
              processor.overlap_size := 1; processor.entropy_method := "weighted";
              processor.entropy_evaluator := entropy.EntropyEvaluator_init |}
           "a b c d e" 0).
  cbn. lia.
Defined.

Section KeySegments.
Context {vectorizer : TfidfVectorizer}.

(** X4: with a positive [overlap_size] (the default is 50) the
    sentence-aware loop of [split_into_batches] does not end on a text that
    has a word, and neither does [extract_key_segments], which starts by
    calling it: whatever the fuel, no result is produced. *)
Theorem sentence_split_never_ends (self : processor.TextProcessor)
    (text : string) :
  (0 < processor.overlap_size self)%Z -> py.split text <> [] ->
  forall fuel,
    processor.split_into_batches fuel self text true = None /\
    forall top_k, processor.extract_key_segments fuel self text top_k = None.
Proof.
  intros Hov Hne fuel. split; [by apply split_into_batches_stalls |].
  intros top_k. unfold processor.extract_key_segments.
  by rewrite split_into_batches_stalls.
Qed.

End KeySegments.

Lemma sentence_split_never_ends_witness :
  processor.split_into_batches 1000 (processor.TextProcessor_init 512)
    "hello world" true = None /\
  forall top_k,
    processor.extract_key_segments
      (vectorizer := doubles.exact_match_vectorizer) 1000
      (processor.TextProcessor_init 512) "hello world" top_k = None.
Proof.
  apply (sentence_split_never_ends
           (vectorizer := doubles.exact_match_vectorizer)
           (processor.TextProcessor_init 512) "hello world");
    [reflexivity | vm_compute; discriminate].
Defined.

(** ** The entropy measures, continued *)

Lemma counter_add_spec `{EqDecision A} (x : A) (c : list (A * nat)) :
  Forall (fun f => 1 <= f) (py.values c) ->
  Forall (fun f => 1 <= f) (py.values (py.counter_add x c)) /\
  count_sum (py.counter_add x c) = S (count_sum c).
Proof.
  unfold py.values, count_sum. induction c as [|[y n] c IH]; intros Hc; cbn.
  - split; [repeat constructor | done].
  - inversion Hc as [|? ? Hn Hc']; subst. case_bool_decide; cbn.
    + split; [constructor; [lia | done] | done].
    + destruct (IH Hc') as [IH1 IH2]. split; [by constructor | lia].
Qed.

Lemma Counter_spec `{EqDecision A} (l : list A) :
  Forall (fun f => 1 <= f) (py.values (py.Counter l)) /\
  count_sum (py.Counter l) = length l.
Proof.
  unfold py.Counter.
  assert (forall c, Forall (fun f => 1 <= f) (py.values c) ->
            Forall (fun f => 1 <= f) (py.values (fold_left (fun c x => py.counter_add x c) l c)) /\
            count_sum (fold_left (fun c x => py.counter_add x c) l c) = count_sum c + length l) as H.
  { induction l as [|x l IH]; intros c Hc; cbn [fold_left length].
    - split; [done | lia].
    - destruct (counter_add_spec x c Hc) as [H1 H2].
      destruct (IH _ H1) as [H3 H4]. split; [done | lia]. }
  destruct (H [] ltac:(constructor)) as [H1 H2]. split; [done | by rewrite H2].
Qed.

Lemma sum_list_bound (l : list nat) : Forall (fun f => f <= sum_list l) l.
Proof.
  induction l as [|x l IH]; cbn; constructor; [lia |].
  eapply Forall_impl; [exact IH |]. cbn. lia.
Qed.

Lemma Counter_values_bounded `{EqDecision A} (l : list A) :
  Forall (fun f => 1 <= f <= length l) (py.values (py.Counter l)).
Proof.
  destruct (Counter_spec l) as [H1 H2].
  pose proof (sum_list_bound (py.values (py.Counter l))) as H3.
  unfold count_sum, py.values in *. rewrite H2 in H3.
  apply Forall_and. split; done.
Qed.

Lemma log2_nonpos p : (0 < p <= 1)%R -> (entropy.log2 p <= 0)%R.
Proof.
  intros [Hp0 Hp1]. unfold entropy.log2.
  assert (ln p <= 0)%R as Hln.
  { rewrite <- ln_1. destruct Hp1 as [Hlt | ->]; [left; by apply ln_increasing | right; reflexivity]. }
  assert (0 < ln 2)%R as H2 by (rewrite <- ln_1; apply ln_increasing; lra).
  assert (0 < / ln 2)%R as Hinv by (by apply Rinv_0_lt_compat).
  unfold Rdiv. nra.
Qed.

Lemma shannon_nonneg freqs total :
  Forall (fun f => 1 <= f <= total) freqs -> (0 <= entropy.shannon freqs total)%R.
Proof.
  unfold entropy.shannon. intros Hf.
  assert (forall acc, (0 <= acc)%R ->
    (0 <= fold_left (fun entropy freq =>
            let p := (INR freq / INR total)%R in (entropy - p * entropy.log2 p)%R) freqs acc)%R) as H.
  { induction Hf as [|f freqs [Hf1 Hf2] Hfs IH]; intros acc Hacc; cbn [fold_left]; [done |].
    apply IH.
    assert (0 < INR f)%R by (apply lt_0_INR; lia).
    assert (0 < INR total)%R by (apply lt_0_INR; lia).
    assert (INR f <= INR total)%R by (apply le_INR; lia).
    assert (0 < INR f / INR total <= 1)%R as Hp.
    { split; [by apply Rdiv_lt_0_compat |].
      apply (Rmult_le_reg_r (INR total)); [done |].
      unfold Rdiv. rewrite Rmult_assoc, Rinv_l by lra. lra. }
    pose proof (log2_nonpos _ Hp). cbn zeta.
    nra. }
  apply H. lra.
Qed.

Lemma shannon_Counter_nonneg `{EqDecision A} (l : list A) :
  (0 <= entropy.shannon (py.values (py.Counter l)) (length l))%R.
Proof. apply shannon_nonneg, Counter_values_bounded. Qed.

(** X5: the word, n-gram and structural measures are never negative. *)
Theorem entropy_measures_nonnegative (text : string) (n : Z) :
  (0 <= entropy.calculate_word_entropy text)%R /\
  (0 <= entropy.calculate_ngram_entropy text n)%R /\
  (0 <= entropy.calculate_structural_entropy text)%R.
Proof.
  split; [| split].
  - apply shannon_Counter_nonneg.
  - apply shannon_Counter_nonneg.
  - unfold entropy.calculate_structural_entropy.
    case_bool_decide; [lra |].
    set (sentences := List.filter _ _).
    assert (0 <= entropy.shannon
              (py.values (py.Counter ((fun s => length (py.split s)) <$> sentences)))
              (length sentences))%R as HL.
    { rewrite <- (length_fmap (fun s => length (py.split s)) sentences).
      apply shannon_Counter_nonneg. }
    pose proof (shannon_Counter_nonneg
                  (List.filter (fun c => py.contains c (py.chars ".,!?;:")) (py.chars text))) as HP.
    destruct (0 <? _); lra.
Qed.

Lemma lower_char_idem c : py.lower_char (py.lower_char c) = py.lower_char c.
Proof. destruct c as [[] [] [] [] [] [] [] []]; reflexivity. Qed.

Lemma lower_idem s : py.lower (py.lower s) = py.lower s.
Proof. induction s as [|c s IH]; cbn; [done |]. by rewrite lower_char_idem, IH. Qed.

(** X6: the word and n-gram measures do not see letter case: a text and its
    lower-cased form score the same. *)
Theorem entropy_ignores_case (text : string) (n : Z) :
  entropy.calculate_word_entropy (py.lower text) = entropy.calculate_word_entropy text /\
  entropy.calculate_ngram_entropy (py.lower text) n = entropy.calculate_ngram_entropy text n.
Proof.
  unfold entropy.calculate_word_entropy, entropy.calculate_ngram_entropy.
  by rewrite lower_idem.
Qed.

Lemma fold_shannon freqs total : forall acc,
  fold_left (fun entropy freq =>
     let p := (INR freq / INR total)%R in (entropy - p * entropy.log2 p)%R) freqs acc
  = (acc - entropy.np_sum ((fun f => (INR f / INR total * entropy.log2 (INR f / INR total))%R) <$> freqs))%R.
Proof.
  induction freqs as [|f freqs IH]; intros acc;
    cbn [fold_left fmap list_fmap]; unfold entropy.np_sum in *; cbn [fold_right].
  - lra.
  - rewrite IH. cbn zeta. lra.
Qed.

Lemma INR_sum_list (l : list nat) :
  INR (sum_list l) = entropy.np_sum (INR <$> l).
Proof.
  induction l as [|x l IH]; cbn [sum_list fmap list_fmap entropy.np_sum fold_right]; [done |].
  rewrite plus_INR. unfold entropy.np_sum in IH. by rewrite IH.
Qed.

Lemma shannon_upper freqs total :
  Forall (fun f => 1 <= f <= total) freqs -> sum_list freqs = total -> 1 <= total ->
  (entropy.shannon freqs total <= entropy.log2 (INR total))%R.
Proof.
  intros Hf Hsum Htot. unfold entropy.shannon. rewrite fold_shannon.
  assert (0 < INR total)%R as HN by (apply lt_0_INR; lia).
  assert (0 < ln 2)%R as H2 by (rewrite <- ln_1; apply ln_increasing; lra).
  assert (0 <= entropy.log2 (INR total))%R as HlogN.
  { unfold entropy.log2. apply Rmult_le_pos; [| left; by apply Rinv_0_lt_compat].
    rewrite <- ln_1. destruct (decide (total = 1)) as [-> | ?]; [cbn; lra |].
    left. apply ln_increasing; [lra |]. apply (lt_INR 1). lia. }
  (* each term: - p log2 p <= p * log2 N *)
  assert (forall fs, Forall (fun f => 1 <= f <= total) fs ->
     (- entropy.np_sum ((fun f => (INR f / INR total * entropy.log2 (INR f / INR total))%R) <$> fs)
      <= entropy.np_sum (INR <$> fs) / INR total * entropy.log2 (INR total))%R) as Hterms.
  { induction 1 as [|f fs [Hf1 Hf2] _ IH]; cbn [fmap list_fmap entropy.np_sum fold_right].
    - lra.
    - unfold entropy.np_sum in IH.
      assert (0 < INR f)%R as Hf0 by (apply lt_0_INR; lia).
      assert (- entropy.log2 (INR f / INR total) <= entropy.log2 (INR total))%R as Hone.
      { unfold entropy.log2. unfold Rdiv at 2. rewrite ln_mult by (try done; by apply Rinv_0_lt_compat).
        rewrite ln_Rinv by done.
        assert (0 <= ln (INR f))%R as Hlf.
        { rewrite <- ln_1. destruct (decide (f = 1)) as [-> | ?]; [cbn; lra |].
          left. apply ln_increasing; [lra |]. apply (lt_INR 1). lia. }
        assert (0 < / ln 2)%R by (by apply Rinv_0_lt_compat).
        unfold Rdiv. nra. }
      assert (0 < INR f / INR total)%R as Hp by (by apply Rdiv_lt_0_compat).
      assert (0 < / INR total)%R by (by apply Rinv_0_lt_compat).
      unfold Rdiv in *. nra. }
  specialize (Hterms freqs Hf).
  rewrite <- INR_sum_list, Hsum in Hterms.
  replace (INR total / INR total)%R with 1%R in Hterms by (field; lra).
  lra.
Qed.

(** X7: the word measure of a text with [k >= 1] words lies between 0 and
    [log2 k]. *)
Theorem word_entropy_bounds (text : string) :
  py.split (py.lower text) <> [] ->
  (0 <= entropy.calculate_word_entropy text
     <= entropy.log2 (INR (length (py.split (py.lower text)))))%R.
Proof.
  intros Hne. split; [apply shannon_Counter_nonneg |].
  unfold entropy.calculate_word_entropy.
  destruct (Counter_spec (py.split (py.lower text))) as [H1 H2].
  apply shannon_upper.
  - apply Counter_values_bounded.
  - exact H2.
  - destruct (py.split (py.lower text)); [done | cbn; lia].
Qed.

Lemma word_entropy_bounds_witness :
  (0 <= entropy.calculate_word_entropy "a b a"
     <= entropy.log2 (INR (length (py.split (py.lower "a b a")))))%R.
Proof.
  apply (word_entropy_bounds "a b a"). vm_compute. discriminate.
Defined.

(** ** Rankings *)

Lemma slice_prefix {A} (l : list A) (n : Z) :
  (0 <= n)%Z -> py.slice l 0 n = take (Z.to_nat n) l.
Proof.
  intros Hn. unfold py.slice, py.slice_bound. cbn [Z.ltb Z.compare].
  destruct (n <? 0)%Z eqn:E; [apply Z.ltb_lt in E; lia |].
  assert (Z.min 0 (py.len l) = 0%Z) as -> by (unfold py.len; lia).
  rewrite Z.sub_0_r. change (Z.to_nat 0) with 0%nat. rewrite drop_0.
  destruct (decide (n <= py.len l)%Z).
  - by rewrite Z.min_l by lia.
  - rewrite Z.min_r by lia. unfold py.len. rewrite Nat2Z.id.
    rewrite firstn_all. symmetry. apply firstn_all2. unfold py.len in *. lia.
Qed.

(** ** sorting by a real score *)
Section SortR.
Context {A : Type}.
Implicit Types l : list (A * R).

Lemma insert_by_score_perm x l : py.insert_by_score x l ≡ₚ x :: l.
Proof.
  induction l as [|y l IH]; cbn; [done |].
  destruct (Rle_dec (snd y) (snd x)); [done |].
  rewrite IH. apply Permutation_swap.
Qed.

Lemma sort_by_score_perm l : py.sort_by_score l ≡ₚ l.
Proof.
  induction l as [|x l IH]; cbn; [done |].
  fold (py.sort_by_score l). by rewrite insert_by_score_perm, IH.
Qed.

Lemma insert_by_score_sorted x l :
  StronglySorted (fun a b : A * R => (snd b <= snd a)%R) l ->
  StronglySorted (fun a b : A * R => (snd b <= snd a)%R)
    (py.insert_by_score x l).
Proof.
  induction 1 as [|y l Hl IH Hy]; cbn.
  - repeat constructor.
  - destruct (Rle_dec (snd y) (snd x)) as [Hle | Hgt].
    + constructor; [by constructor |]. constructor; [done |].
      eapply Forall_impl; [exact Hy |]. cbn beta. intros z Hz. lra.
    + constructor; [done |].
      rewrite insert_by_score_perm. constructor; [| done].
      cbn beta. lra.
Qed.

Lemma sort_by_score_sorted l :
  StronglySorted (fun a b : A * R => (snd b <= snd a)%R) (py.sort_by_score l).
Proof.
  induction l as [|x l IH]; cbn; [constructor |]. by apply insert_by_score_sorted.
Qed.
End SortR.

(** ** sorting by a rational score *)

Lemma insert_desc_perm x l : framework.insert_desc x l ≡ₚ x :: l.
Proof.
  induction l as [|y l IH]; cbn; [done |].
  destruct (Qle_bool (snd y) (snd x)); [done |].
  rewrite IH. apply Permutation_swap.
Qed.

Lemma sort_desc_perm l : framework.sort_desc l ≡ₚ l.
Proof.
  induction l as [|x l IH]; cbn; [done |].
  fold (framework.sort_desc l). by rewrite insert_desc_perm, IH.
Qed.

Lemma insert_desc_sorted x l :
  StronglySorted (fun a b : string * Q => (snd b <= snd a)%Q) l ->
  StronglySorted (fun a b : string * Q => (snd b <= snd a)%Q)
    (framework.insert_desc x l).
Proof.
  induction 1 as [|y l Hl IH Hy]; cbn.
  - repeat constructor.
  - destruct (Qle_bool (snd y) (snd x)) eqn:E.
    + apply Qle_bool_iff in E.
      constructor; [by constructor |]. constructor; [done |].
      eapply Forall_impl; [exact Hy |]. cbn beta. intros z Hz.
      by eapply Qle_trans.
    + constructor; [done |].
      rewrite insert_desc_perm. constructor; [| done].
      cbn beta. apply Qlt_le_weak, Qnot_le_lt. intros Hle.
      apply Qle_bool_iff in Hle. congruence.
Qed.

Lemma sort_desc_sorted l :
  StronglySorted (fun a b : string * Q => (snd b <= snd a)%Q)
    (framework.sort_desc l).
Proof.
  induction l as [|x l IH]; cbn; [constructor |]. by apply insert_desc_sorted.
Qed.

(** from pairs to their first components *)
Lemma sorted_fst {A K} (R : K -> K -> Prop) (f : A -> K) (l : list (A * K)) :
  Forall (fun p => snd p = f (fst p)) l ->
  StronglySorted (fun a b => R (snd a) (snd b)) l ->
  StronglySorted (fun a b => R (f a) (f b)) (fst <$> l).
Proof.
  intros Hf Hs. induction Hs as [|p l Hl IH Hp]; cbn; [constructor |].
  inversion Hf as [|? ? Hp1 Hf']; subst.
  constructor; [by apply IH |].
  apply Forall_fmap. rewrite Forall_forall in Hp, Hf'. apply Forall_forall.
  intros q Hq. cbn. rewrite <- Hp1, <- (Hf' q Hq). by apply Hp.
Qed.

(** X8: for [num_samples >= 0] the entropy strategy returns the first
    [min(num_samples, 1 + len(rag_context))] contexts of an arrangement of
    the whole pool by decreasing word entropy: what it leaves out scores no
    higher than what it returns. *)
Theorem entropy_sampling_takes_top (useful_context : string)
    (rag_context : list string) (num_samples : Z) :
  (0 <= num_samples)%Z ->
  exists rest,
    framework._entropy_based_sampling useful_context rag_context num_samples ++ rest
      ≡ₚ useful_context :: rag_context /\
    StronglySorted
      (fun a b => (framework.calculate_entropy b <= framework.calculate_entropy a)%R)
      (framework._entropy_based_sampling useful_context rag_context num_samples ++ rest) /\
    length (framework._entropy_based_sampling useful_context rag_context num_samples)
    = Z.to_nat num_samples `min` S (length rag_context).
Proof.
  intros Hn. unfold framework._entropy_based_sampling.
  set (pool := useful_context :: rag_context).
  set (scored := (fun ctx => (ctx, framework.calculate_entropy ctx)) <$> pool).
  rewrite slice_prefix by done.
  exists (fst <$> drop (Z.to_nat num_samples) (py.sort_by_score scored)).
  rewrite <- fmap_app, take_drop.
  assert (Forall (fun p => snd p = framework.calculate_entropy (fst p)) scored) as Hsc.
  { unfold scored. apply Forall_fmap, Forall_forall. done. }
  split; [| split].
  - rewrite sort_by_score_perm. unfold scored. rewrite <- list_fmap_compose.
    by rewrite list_fmap_id.
  - apply (sorted_fst (fun x y => (y <= x)%R) framework.calculate_entropy).
    + eapply Permutation_Forall; [| exact Hsc]. symmetry. apply sort_by_score_perm.
    + apply sort_by_score_sorted.
  - rewrite length_fmap, length_take.
    rewrite (Permutation_length (sort_by_score_perm scored)).
    unfold scored. rewrite length_fmap. done.
Qed.

Lemma entropy_sampling_takes_top_witness :
  exists rest,
    framework._entropy_based_sampling "a a" ["a b"; "c"] 1 ++ rest
      ≡ₚ ["a a"; "a b"; "c"] /\
    StronglySorted
      (fun a b => (framework.calculate_entropy b <= framework.calculate_entropy a)%R)
      (framework._entropy_based_sampling "a a" ["a b"; "c"] 1 ++ rest) /\
    length (framework._entropy_based_sampling "a a" ["a b"; "c"] 1) = 1.
Proof.
  apply (entropy_sampling_takes_top "a a" ["a b"; "c"] 1). lia.
Defined.

Lemma mapM_result_inv {A B} (f : A -> result B) (l : list A) ys :
  mapM f l = Ok ys -> Forall2 (fun x y => f x = Ok y) l ys.
Proof.
  revert ys. induction l as [|x l IH]; intros ys; cbn.
  - intros [= <-]. constructor.
  - destruct (f x) as [y | e] eqn:Hy; cbn; [| done].
    destruct (mapM f l) as [ys' | e] eqn:Hys; cbn; [| done].
    intros [= <-]. constructor; [done |]. by apply IH.
Qed.

Lemma mapM_result_fmap {A B} (f : A -> result B) (g : A -> B) (l : list A) :
  (forall x, x ∈ l -> f x = Ok (g x)) -> mapM f l = Ok (g <$> l).
Proof.
  induction l as [|x l IH]; intros Hf; cbn; [done |].
  rewrite Hf by left. cbn. rewrite IH; [done |]. intros z Hz. apply Hf. by right.
Qed.

Section Ranking.
Context {vectorizer : TfidfVectorizer}.


End Ranking.


Lemma strongly_sorted_impl {A} (R1 R2 : A -> A -> Prop) (l : list A) :
  (forall a b, R1 a b -> R2 a b) -> StronglySorted R1 l -> StronglySorted R2 l.
Proof.
  intros HR. induction 1 as [|x l Hl IH Hx]; constructor; [done |].
  eapply Forall_impl; [exact Hx |]. intros y. apply HR.
Qed.

Lemma size_words_zero (l : list string) :
  size (list_to_set l : gset string) = 0 <-> l = [].
Proof.
  split.
  - intros Hs. apply size_empty_inv in Hs. destruct l as [|x l]; [done |].
    exfalso. apply (not_elem_of_empty (C := gset string) x).
    rewrite <- Hs. set_solver.
  - intros ->. done.
Qed.

(** X10: once a caller has assigned [current_query], the relevance strategy
    raises [ZeroDivisionError] for a query without words; for any other
    query and [num_samples >= 0] it returns the first
    [min(num_samples, 1 + len(rag_context))] contexts of an arrangement of
    the whole pool by decreasing relevance to the query. *)
Theorem relevance_sampling_ranks (self : framework.FrameworkGenerator)
    (query useful_context : string) (rag_context : list string)
    (num_samples : Z) :
  framework.current_query self = Some query ->
  (0 <= num_samples)%Z ->
  if bool_decide (py.split (py.lower query) = [])
  then framework._relevance_based_sampling self useful_context rag_context
         num_samples = Raise ZeroDivisionError
  else
    exists sampled rest,
      framework._relevance_based_sampling self useful_context rag_context
        num_samples = Ok sampled /\
      sampled ++ rest ≡ₚ useful_context :: rag_context /\
      StronglySorted
        (fun a b => exists ra rb,
             framework.calculate_relevance a query = Ok ra /\
             framework.calculate_relevance b query = Ok rb /\
             (rb <= ra)%Q)
        (sampled ++ rest) /\
      length sampled = Z.to_nat num_samples `min` S (length rag_context).
Proof.
  intros Hq Hn. unfold framework._relevance_based_sampling, framework.get_current_query.
  rewrite Hq. case_bool_decide as Hw.
  - cbn. unfold framework.calculate_relevance.
    rewrite bool_decide_true by (by apply size_words_zero). done.
  - set (rel := fun ctx : string =>
        Qmake (Z.of_nat (size ((list_to_set (py.split (py.lower query)) : gset string)
                                 ∩ list_to_set (py.split (py.lower ctx)))))
              (Pos.of_nat (size (list_to_set (py.split (py.lower query)) : gset string)))).
    assert (forall ctx, framework.calculate_relevance ctx query = Ok (rel ctx)) as Hrel.
    { intros ctx. unfold framework.calculate_relevance.
      rewrite bool_decide_false; [done |]. by rewrite size_words_zero. }
    rewrite (mapM_result_fmap _ (fun ctx => (ctx, rel ctx))).
    2:{ intros ctx _. cbn. rewrite Hrel. done. }
    cbn [mbind result_bind]. 
    set (pool := useful_context :: rag_context).
    set (scored := (fun ctx => (ctx, rel ctx)) <$> pool).
    rewrite slice_prefix by done.
    exists (fst <$> take (Z.to_nat num_samples) (framework.sort_desc scored)),
           (fst <$> drop (Z.to_nat num_samples) (framework.sort_desc scored)).
    split; [done |].
    rewrite <- fmap_app, take_drop.
    assert (Forall (fun p => snd p = rel (fst p)) scored) as Hsc.
    { unfold scored. apply Forall_fmap, Forall_forall. done. }
    split; [| split].
    + rewrite sort_desc_perm. unfold scored. rewrite <- list_fmap_compose.
      by rewrite list_fmap_id.
    + eapply strongly_sorted_impl; cycle 1.
      * apply (sorted_fst (fun x y => (y <= x)%Q) rel (framework.sort_desc scored)).
        -- eapply Permutation_Forall; [| exact Hsc]. symmetry. apply sort_desc_perm.
        -- apply sort_desc_sorted.
      * intros a b Hab. exists (rel a), (rel b). by rewrite !Hrel.
    + rewrite length_fmap, length_take.
      rewrite (Permutation_length (sort_desc_perm scored)).
      unfold scored. rewrite length_fmap. done.
Qed.

Lemma relevance_sampling_ranks_witness :
  exists sampled rest,
    framework._relevance_based_sampling
      {| framework.current_query := Some "a b" |} "a x" ["a b"; "c"] 2
      = Ok sampled /\
    sampled ++ rest ≡ₚ ["a x"; "a b"; "c"] /\
    StronglySorted
      (fun a b => exists ra rb,
           framework.calculate_relevance a "a b" = Ok ra /\
           framework.calculate_relevance b "a b" = Ok rb /\
           (rb <= ra)%Q)
      (sampled ++ rest) /\
    length sampled = 2.
Proof.
  apply (relevance_sampling_ranks
           {| framework.current_query := Some "a b" |} "a b" "a x"
           ["a b"; "c"] 2); [reflexivity | lia].
Defined.

(** ** Diversity sampling *)

(** ** [list.remove], [min] and the diversity loop *)

Lemma remove_perm `{EqDecision A} (x : A) (l : list A) :
  x ∈ l -> exists l', py.remove x l = Ok l' /\ l ≡ₚ x :: l'.
Proof.
  induction l as [|y l IH]; intros Hx; [by apply elem_of_nil in Hx |].
  cbn. case_bool_decide as Hxy.
  - subst. by exists l.
  - apply elem_of_cons in Hx as [? | Hx]; [done |].
    destruct (IH Hx) as (l' & -> & Hl'). cbn. exists (y :: l'). split; [done |].
    rewrite Hl'. apply Permutation_swap.
Qed.

Lemma min_by_key_elem {A} (l : list (A * Q)) :
  l <> [] -> exists m, py.min_by_key l = Ok m /\ m ∈ l.
Proof.
  destruct l as [|x l]; [done |]. intros _. cbn. eexists; split; [done |].
  assert (forall m, fold_left
            (fun m y => if Qlt_le_dec (snd y) (snd m) then y else m) l m
          ∈ m :: l) as H.
  { induction l as [|y l IH]; intros m; cbn; [left |].
    destruct (Qlt_le_dec (snd y) (snd m)).
    - right. apply IH.
    - specialize (IH m). apply elem_of_cons in IH as [-> | IH]; [left |].
      right. by right. }
  apply H.
Qed.

Lemma calculate_similarity_ok (text1 text2 : string) :
  has_words text1 -> exists q, framework.calculate_similarity text1 text2 = Ok q.
Proof.
  intros Hw. unfold framework.calculate_similarity.
  rewrite bool_decide_false; [eauto |].
  intros Hs. apply size_empty_inv in Hs.
  destruct (py.split (py.lower text1)) as [|w ws] eqn:E; [done |].
  apply (not_elem_of_empty (C := gset string) w). rewrite <- Hs. set_solver.
Qed.

Lemma diversity_loop_selects (num_samples : Z) :
  forall fuel selected remaining,
    selected <> [] -> Forall has_words remaining ->
    length remaining < fuel ->
    exists chosen,
      framework.diversity_loop fuel num_samples selected remaining
        = Some (Ok (selected ++ chosen)) /\
      chosen ⊆+ remaining /\
      length chosen
      = Z.to_nat (num_samples - py.len selected) `min` length remaining.
Proof.
  induction fuel as [|fuel IH]; intros selected remaining Hsel Hw Hfuel; [lia |].
  cbn [framework.diversity_loop].
  destruct (py.len selected <? num_samples)%Z eqn:Hlt; cbn [andb]; cycle 1.
  { apply Z.ltb_ge in Hlt. exists []. rewrite app_nil_r. split; [done |].
    split; [apply submseteq_nil_l |]. cbn. lia. }
  apply Z.ltb_lt in Hlt.
  case_bool_decide as Hrem; cbn [negb].
  { subst. exists []. rewrite app_nil_r. split; [done |]. split; [done |].
    cbn. lia. }
  edestruct (mapM_result_ok
    (fun ctx =>
       similarities ←
         mapM (fun sel => framework.calculate_similarity ctx sel) selected;
       m ← py.max_Q similarities;
       Ok (ctx, m)) remaining) as (scored & Hmap & Hlen).
  { intros ctx Hctx.
    destruct (mapM_result_ok
      (fun sel => framework.calculate_similarity ctx sel) selected)
      as (sims & -> & Hsims).
    { intros sel _. apply calculate_similarity_ok.
      rewrite Forall_forall in Hw. by apply Hw. }
    cbn. destruct sims as [|s sims]; [by destruct selected |]. cbn. eauto. }
  rewrite Hmap. cbn [mbind result_bind].
  assert (fst <$> scored = remaining) as Hfst.
  { apply mapM_result_inv in Hmap. clear -Hmap.
    induction Hmap as [|ctx p ctxs ps Hp _ IH]; [done |].
    cbn. rewrite IH. f_equal.
    destruct (mapM _ selected) as [sims|]; cbn in Hp; [| done].
    destruct (py.max_Q sims); cbn in Hp; [| done]. by injection Hp as <-. }
  destruct (min_by_key_elem scored) as (next & -> & Hnext).
  { intros ->. by destruct remaining. }
  cbn [mbind result_bind].
  assert (fst next ∈ remaining) as Hin.
  { rewrite <- Hfst. apply list_elem_of_fmap. by exists next. }
  destruct (remove_perm (fst next) remaining Hin) as (remaining' & -> & Hperm).
  cbn [mbind result_bind].
  destruct (IH (selected ++ [fst next]) remaining') as (chosen & -> & Hsub & Hn).
  { by destruct selected. }
  { rewrite Hperm in Hw. by inversion Hw. }
  { apply Permutation_length in Hperm. cbn in Hperm. lia. }
  exists (fst next :: chosen). rewrite <- app_assoc. split; [done |].
  split.
  - rewrite Hperm. by apply submseteq_skip.
  - cbn [length]. rewrite Hn. apply Permutation_length in Hperm. cbn in Hperm.
    unfold py.len in *. rewrite length_app. cbn [length]. lia.
Qed.

(** X11: when every context has a word, the diversity strategy ends (a fuel
    above [len(rag_context)] is enough) without raising. It returns
    [max(1, min(num_samples, 1 + len(rag_context)))] contexts, so at least
    one even for [num_samples <= 0]; the first is the drawn one, and none is
    used more often than it occurs in the pool. *)
Theorem diversity_sampling_selects (fuel draw : nat) (useful_context : string)
    (rag_context : list string) (num_samples : Z) :
  Forall has_words (useful_context :: rag_context) ->
  length rag_context < fuel ->
  exists selected,
    framework._diversity_based_sampling fuel draw useful_context rag_context
      num_samples = Some (Ok selected) /\
    selected ⊆+ useful_context :: rag_context /\
    head selected
    = (useful_context :: rag_context) !! (draw mod S (length rag_context)) /\
    length selected
    = 1 `max` (Z.to_nat num_samples `min` S (length rag_context)).
Proof.
  intros Hw Hfuel. unfold framework._diversity_based_sampling. cbv zeta.
  set (pool := useful_context :: rag_context).
  assert (length pool = S (length rag_context)) as Hpool by done.
  destruct (pool !! (draw mod length pool)) as [first|] eqn:Hfirst; cycle 1.
  { apply lookup_ge_None in Hfirst.
    pose proof (Nat.mod_upper_bound draw (length pool)). lia. }
  unfold default, from_option. change (Datatypes.id first) with first.
  destruct (remove_perm first pool) as (remaining & -> & Hperm).
  { by eapply list_elem_of_lookup_2. }
  destruct (diversity_loop_selects num_samples fuel [first] remaining)
    as (chosen & -> & Hsub & Hn).
  { done. }
  { fold pool in Hw. rewrite Hperm in Hw. by inversion Hw. }
  { apply Permutation_length in Hperm. cbn in Hperm. lia. }
  exists (first :: chosen). split; [done |]. split; [| split].
  - rewrite Hperm. by apply submseteq_skip.
  - cbn [head]. rewrite <- Hfirst. by rewrite Hpool.
  - cbn [length]. rewrite Hn. apply Permutation_length in Hperm.
    cbn in Hperm. unfold py.len. cbn [length]. lia.
Qed.

Lemma diversity_sampling_selects_witness :
  exists selected,
    framework._diversity_based_sampling 3 0 "a b" ["a c"; "d e"] 2
      = Some (Ok selected) /\
    selected ⊆+ ["a b"; "a c"; "d e"] /\
    head selected = Some "a b" /\
    length selected = 2.
Proof.
  apply (diversity_sampling_selects 3 0 "a b" ["a c"; "d e"] 2).
  - repeat constructor; vm_compute; discriminate.
  - vm_compute. lia.
Defined.

(** ** Sentence-wise synthesis *)

(** ** [str.split(sep)] and [sep.join] *)

Lemma is_prefix_app (p s : string) :
  py.is_prefix p s = true -> exists t, s = p +:+ t.
Proof.
  revert s. induction p as [|a p IH]; intros s; cbn.
  - intros _. by exists s.
  - destruct s as [|b s]; [done |].
    intros [Hab Hp]%andb_prop. apply bool_decide_eq_true in Hab as ->.
    destruct (IH s Hp) as [t ->]. by exists t.
Qed.

Lemma split_str_from_skip (sep : string) (cur u t : string) :
  py.split_str_from sep (String.length u) cur (u +:+ t)
  = py.split_str_from sep 0 cur t.
Proof.
  induction u as [|c u IH]; [reflexivity |].
  change (String c u +:+ t) with (String c (u +:+ t)). cbn. exact IH.
Qed.

Lemma split_str_from_cons (sep : string) skip cur s :
  exists x l, py.split_str_from sep skip cur s = x :: l.
Proof.
  revert skip cur. induction s as [|c s IH]; intros skip cur; cbn; [eauto |].
  destruct skip; [| apply IH].
  destruct (py.is_prefix sep (String c s)); [eauto | apply IH].
Qed.

Lemma string_length_append (a b : string) :
  String.length (a +:+ b) = String.length a + String.length b.
Proof.
  induction a as [|x a IH]; [reflexivity |].
  change (S (String.length (a +:+ b)) = S (String.length a + String.length b)).
  by rewrite IH.
Qed.

Lemma join_cons (sep x y : string) (l : list string) :
  py.join sep (x :: y :: l) = x +:+ sep +:+ py.join sep (y :: l).
Proof. reflexivity. Qed.

Lemma join_split_str_from (sep : string) :
  sep <> EmptyString ->
  forall n s cur,
    String.length s <= n ->
    py.join sep (py.split_str_from sep 0 cur s) = cur +:+ s.
Proof.
  intros Hsep. induction n as [|n IH]; intros s cur Hn.
  - destruct s; [| cbn in Hn; lia]. cbn. by rewrite app_empty_r.
  - destruct s as [|c s]; [cbn; by rewrite app_empty_r |].
    cbn [py.split_str_from].
    destruct (py.is_prefix sep (String c s)) eqn:Hp.
    + destruct (is_prefix_app _ _ Hp) as [t Ht].
      destruct sep as [|a sep']; [done |].
      change (String a sep' +:+ t) with (String a (sep' +:+ t)) in Ht.
      injection Ht as -> ->.
      change (String.length (String a sep') - 1) with (String.length sep' - 0).
      rewrite Nat.sub_0_r, split_str_from_skip.
      destruct (split_str_from_cons (String a sep') 0 EmptyString t)
        as (x & l & Hx).
      pose proof (IH t EmptyString) as Ht. rewrite Hx in Ht |- *.
      rewrite join_cons, Ht.
      * change (EmptyString +:+ t) with t.
        by change (String a sep' +:+ t) with (String a (sep' +:+ t)).
      * cbn [String.length] in Hn. rewrite string_length_append in Hn. lia.
    + rewrite IH by (cbn in Hn; lia). apply app_String_r.
Qed.

Lemma join_split_str (sep s : string) :
  sep <> EmptyString -> py.join sep (py.split_str sep s) = s.
Proof.
  intros Hsep. unfold py.split_str.
  by rewrite (join_split_str_from sep Hsep (String.length s)).
Qed.

(** ** [_weighted_average] *)

Lemma max_Z_head (x : Z) (l : list Z) :
  Forall (fun y => (y <= x)%Z) l -> fold_left Z.max l x = x.
Proof.
  induction 1 as [|y l Hy _ IH]; cbn; [done |]. by rewrite Z.max_l.
Qed.

Lemma max_by_key_uniform {A} (x : A * Q) (l : list (A * Q)) :
  Forall (fun y => snd y = snd x) l -> py.max_by_key (x :: l) = Ok x.
Proof.
  intros Hl. cbn. f_equal. induction Hl as [|y l Hy _ IH]; cbn; [done |].
  destruct (Qlt_le_dec (snd x) (snd y)) as [Hlt | _]; [| done].
  rewrite Hy in Hlt. by apply Qlt_irrefl in Hlt.
Qed.

Lemma zip_replicate_snd {A B} (l : list A) (n : nat) (w : B) :
  Forall (fun p => snd p = w) (zip l (replicate n w)).
Proof.
  revert n. induction l as [|x l IH]; intros [|n]; cbn; constructor; auto.
Qed.

Lemma flat_map_singletons {A} (f : nat -> list A) (l : list A) :
  forall k,
    (forall i x, l !! i = Some x -> f (k + i) = [x]) ->
    flat_map f (seq k (length l)) = l.
Proof.
  induction l as [|x l IH]; intros k Hf; cbn; [done |].
  pose proof (Hf 0 x eq_refl) as H0. rewrite Nat.add_0_r in H0.
  rewrite H0. cbn. f_equal. apply IH.
  intros i y Hi. replace (S k + i) with (k + S i) by lia. by apply Hf.
Qed.

(** X12: the weights of [_weighted_average] are uniform, so the candidate
    order decides: a first candidate without a blank sentence that has at
    least as many sentences as every other candidate is returned unchanged,
    whatever the other candidates say. *)
Theorem weighted_average_keeps_first (query framework candidate : string)
    (others : list string) :
  Forall (fun s => py.strip s <> EmptyString) (py.split_str ". " candidate) ->
  Forall (fun other => length (py.split_str ". " other)
                       <= length (py.split_str ". " candidate)) others ->
  framework._weighted_average query framework (candidate :: others)
  = Ok candidate.
Proof.
  intros Hfull Hlen. unfold framework._weighted_average.
  cbn [length replicate fmap list_fmap py.max_Z mbind result_bind].
  rewrite max_Z_head; cycle 1.
  { apply Forall_fmap, Forall_fmap. eapply Forall_impl; [exact Hlen |].
    intros other Ho. cbn in Ho |- *. unfold py.len. lia. }
  cbn [mbind result_bind]. unfold py.len. rewrite Nat2Z.id.
  rewrite flat_map_singletons.
  { by rewrite join_split_str. }
  intros i s Hs. cbn [Nat.add]. unfold framework.weighted_choice.
  cbn [fmap list_fmap zip zip_with List.filter fst]. rewrite Hs. cbn [default from_option id].
  rewrite bool_decide_false; cycle 1.
  { rewrite Forall_forall in Hfull. apply Hfull. by eapply list_elem_of_lookup_2. }
  cbn [negb]. rewrite max_by_key_uniform; [done |].
  cbn [snd]. apply Forall_forall. intros p Hp.
  apply list_elem_of_In, filter_In in Hp as [Hp%list_elem_of_In _].
  pose proof (zip_replicate_snd
    ((fun s0 : list string => default EmptyString (s0 !! i))
       <$> (py.split_str ". " <$> others)) (length others) 1%Q) as Hz.
  rewrite Forall_forall in Hz. by apply Hz.
Qed.

Lemma weighted_average_keeps_first_witness :
  framework._weighted_average "q" "f" ["One. Two"; "Three"] = Ok "One. Two".
Proof.
  apply (weighted_average_keeps_first "q" "f" "One. Two" ["Three"]).
  - vm_compute. repeat constructor; discriminate.
  - vm_compute. repeat constructor.
Defined.

(** ** The memory store, continued *)

Lemma contains_elem_of `{EqDecision A} (x : A) l : py.contains x l = true <-> x ∈ l.
Proof.
  unfold py.contains. rewrite existsb_exists. split.
  - intros (y & Hy & E). apply bool_decide_eq_true in E. subst. by apply list_elem_of_In.
  - intros H. exists x. split; [by apply list_elem_of_In | by apply bool_decide_eq_true].
Qed.

Lemma contains_not_elem_of `{EqDecision A} (x : A) l : py.contains x l = false <-> x ∉ l.
Proof.
  rewrite <- contains_elem_of. destruct (py.contains x l); split; done.
Qed.

Section Nub.
Context `{EqDecision A}.
Implicit Types l k : list A.

Let step := (fun (acc : list A) (x : A) => if py.contains x acc then acc else acc ++ [x]).

Lemma nub_fold_elem l : forall acc x, x ∈ fold_left step l acc <-> x ∈ acc \/ x ∈ l.
Proof.
  induction l as [|y l IH]; intros acc x; cbn.
  - rewrite elem_of_nil. tauto.
  - rewrite IH, elem_of_cons. unfold step.
    destruct (py.contains y acc) eqn:E.
    + apply contains_elem_of in E. split; [tauto |].
      intros [? | [Hx | ?]]; [tauto | subst; tauto | tauto].
    + rewrite elem_of_app, list_elem_of_singleton. tauto.
Qed.

Lemma nub_elem l x : x ∈ nub l <-> x ∈ l.
Proof. unfold nub. fold step. rewrite nub_fold_elem, elem_of_nil. tauto. Qed.

Lemma nub_snoc l x :
  nub (l ++ [x]) = if py.contains x l then nub l else nub l ++ [x].
Proof.
  assert (nub (l ++ [x]) = step (nub l) x) as ->.
  { unfold nub. by rewrite fold_left_app. }
  unfold step. destruct (py.contains x l) eqn:E.
  - apply contains_elem_of in E. apply nub_elem in E. apply contains_elem_of in E.
    by rewrite E.
  - apply contains_not_elem_of in E. rewrite <- nub_elem in E.
    apply contains_not_elem_of in E. by rewrite E.
Qed.

Lemma nub_app_old l k : Forall (fun x => x ∈ l) k -> nub (l ++ k) = nub l.
Proof.
  induction k as [|x k IH] using rev_ind; intros Hk; [by rewrite app_nil_r |].
  apply Forall_app in Hk as [Hk Hx]. inversion Hx; subst.
  rewrite app_assoc, nub_snoc, IH by done.
  rewrite (proj2 (contains_elem_of x (l ++ k))); [done |].
  apply elem_of_app. by left.
Qed.
End Nub.

Ltac rag_fields :=
  cbn [rag.use_faiss rag.index rag.texts rag.embeddings
       rag.summarize_prompt_template rag.similarity_threshold
       rag.set_texts rag.set_embeddings rag.set_index snd fst] in *.

Section StoreInvariant.
Context {model : LLMInterface} {embedding_model : SentenceTransformer} {faiss_lib : Faiss}.

Lemma summarize_text_template (self self' : rag.RAGManager) text :
  rag.summarize_prompt_template self' = rag.summarize_prompt_template self ->
  rag.summarize_text self' text = rag.summarize_text self text.
Proof. intros E. unfold rag.summarize_text. by rewrite E. Qed.

Lemma index_add_logged_consistent (self : rag.RAGManager) ix vs :
  is_Some (rag.index self) ->
  store_consistent self -> store_consistent (rag.index_add_logged self ix vs).
Proof.
  intros [ix0 Hix] [Hemb Hlen]. unfold rag.index_add_logged.
  destruct (IndexFlatL2_add ix vs); [| done].
  split; cbn; [done |]. rewrite Hix in Hlen. by destruct (rag.use_faiss self).
Qed.

Lemma store_text_consistent (self : rag.RAGManager) text :
  store_consistent self -> store_consistent (snd (rag.store_text self text)).
Proof.
  intros [Hemb Hlen]. unfold rag.store_text.
  destruct (py.contains _ (rag.texts self)) eqn:Hin; [done |].
  set (s := rag.summarize_text self text) in *.
  assert (nub (rag.texts self ++ [s]) = nub (rag.texts self) ++ [s]) as Hnub.
  { by rewrite nub_snoc, Hin. }
  rag_fields.
  destruct (rag.use_faiss self) eqn:Hf;
    [destruct (rag.index self) as [ix|] eqn:Hix |].
  - rag_fields. apply index_add_logged_consistent; [rag_fields; rewrite Hix; eauto |].
    split; rag_fields; rewrite ?Hf, ?Hix.
    + rewrite (nub_app_old (rag.texts self ++ [s]) [s]).
      2:{ repeat constructor. apply elem_of_app. right. by left. }
      by rewrite Hnub, fmap_app, Hemb.
    + rewrite !length_app. cbn [length]. lia.
  - split; rag_fields; rewrite ?Hf, ?Hix.
    + by rewrite Hnub, fmap_app, Hemb.
    + rewrite !length_app. cbn [length]. lia.
  - split; rag_fields; rewrite ?Hf.
    + by rewrite Hnub, fmap_app, Hemb.
    + rewrite !length_app. cbn [length]. lia.
Qed.
End StoreInvariant.

Section BatchStore.
Context {model : LLMInterface} {embedding_model : SentenceTransformer} {faiss_lib : Faiss}.

Ltac acc_fields :=
  cbn [rag.acc_self rag.summaries rag.new_vectors rag.new_summaries] in *.

Lemma batch_step_inv self0 acc text :
  batch_inv self0 acc ->
  batch_inv self0 (rag.batch_step acc text) /\
  rag.summaries (rag.batch_step acc text)
  = rag.summaries acc ++ [rag.summarize_text self0 text].
Proof.
  intros [Ht Hf Hi He Htl Hel Hn Hs]. unfold rag.batch_step.
  rewrite (summarize_text_template self0 (rag.acc_self acc)) by done.
  set (s := rag.summarize_text self0 text).
  destruct (py.contains s (rag.texts (rag.acc_self acc))) eqn:Hin.
  - split; [| done]. by constructor.
  - split; [| done]. constructor; acc_fields; rag_fields; try done.
    + by rewrite nub_snoc, Hin, fmap_app, He.
    + rewrite !length_app. cbn [length]. lia.
    + rewrite !length_app. cbn [length]. lia.
    + rewrite !length_app. cbn [length]. lia.
    + apply Forall_app. split.
      * eapply Forall_impl; [exact Hs |]. intros x Hx. apply elem_of_app. by left.
      * repeat constructor. apply elem_of_app. right. by left.
Qed.

Lemma batch_fold_inv self0 texts_in : forall acc,
  batch_inv self0 acc ->
  batch_inv self0 (fold_left rag.batch_step texts_in acc) /\
  rag.summaries (fold_left rag.batch_step texts_in acc)
  = rag.summaries acc ++ (rag.summarize_text self0 <$> texts_in).
Proof.
  induction texts_in as [|t ts IH]; intros acc Hacc; cbn [fold_left fmap list_fmap].
  - by rewrite app_nil_r.
  - destruct (batch_step_inv self0 acc t Hacc) as [H1 H2].
    destruct (IH _ H1) as [H3 H4]. split; [done |].
    by rewrite H4, H2, <- app_assoc.
Qed.

Lemma batch_inv_init (self : rag.RAGManager) :
  rag.embeddings self = SentenceTransformer_encode <$> nub (rag.texts self) ->
  batch_inv self {| rag.acc_self := self; rag.summaries := [];
                    rag.new_vectors := []; rag.new_summaries := [] |}.
Proof. intros He. constructor; cbn; try done; lia. Qed.

Lemma batch_store_consistent (self : rag.RAGManager) (texts_in : list string) :
  store_consistent self ->
  fst (rag.batch_store self texts_in) = rag.summarize_text self <$> texts_in /\
  store_consistent (snd (rag.batch_store self texts_in)).
Proof.
  intros [Hemb Hlen]. unfold rag.batch_store.
  destruct texts_in as [|t ts]; [done |].
  destruct (batch_fold_inv self (t :: ts) _ (batch_inv_init self Hemb)) as [Hinv Hsum].
  set (acc := fold_left rag.batch_step (t :: ts) _) in *.
  destruct Hinv as [Ht Hf Hi He Htl Hel Hn Hs].
  assert (store_consistent (rag.acc_self acc) \/
          (rag.use_faiss self = true /\ is_Some (rag.index self) /\ rag.new_vectors acc <> [])) as Hcase.
  { destruct (rag.use_faiss self) eqn:Hfa; [destruct (rag.index self) eqn:Hix |].
    - destruct (rag.new_vectors acc) eqn:Hnv; [| right; eauto].
      left. split; [done |]. rewrite Hf, Hi. cbn [length] in Hn. simpl in Hlen |- *. lia.
    - left. split; [done |]. rewrite Hf, Hi. simpl in Hlen |- *. lia.
    - left. split; [done |]. rewrite Hf. simpl in Hlen |- *. lia. }
  rewrite Hf, Hi.
  destruct (rag.use_faiss self) eqn:Hfa; [destruct (rag.index self) as [ix|] eqn:Hix |].
  - destruct (rag.new_vectors acc) as [|v vs] eqn:Hnv.
    + cbn [fst snd]. split; [done |]. destruct Hcase as [? | (_ & _ & ?)]; done.
    + cbn [fst snd]. split; [done |].
      apply index_add_logged_consistent; [rag_fields; rewrite Hi; eauto |].
      split; rag_fields.
      * by rewrite nub_app_old.
      * rewrite Hf, Hi, length_app. simpl in Hlen |- *. lia.
  - cbn [fst snd]. split; [done |]. destruct Hcase as [? | (_ & [? ?] & _)]; done.
  - cbn [fst snd]. split; [done |]. destruct Hcase as [? | (? & _)]; done.
Qed.

(** X13: [store_text] and [batch_store] keep the store consistent: there is
    one embedding per distinct stored summary, in order of first storage,
    and the summary list is twice as long as the embedding list when the
    index is in use, as long otherwise. *)
Theorem store_keeps_consistency (self : rag.RAGManager) :
  store_consistent self ->
  (forall text, store_consistent (snd (rag.store_text self text))) /\
  (forall texts_in, store_consistent (snd (rag.batch_store self texts_in))).
Proof.
  intros Hself. split.
  - intros text. by apply store_text_consistent.
  - intros texts_in. by apply batch_store_consistent.
Qed.

Lemma batch_step_summaries self0 acc text :
  rag.summarize_prompt_template (rag.acc_self acc)
  = rag.summarize_prompt_template self0 ->
  rag.summarize_prompt_template (rag.acc_self (rag.batch_step acc text))
  = rag.summarize_prompt_template self0 /\
  rag.summaries (rag.batch_step acc text)
  = rag.summaries acc ++ [rag.summarize_text self0 text].
Proof.
  intros Ht. unfold rag.batch_step.
  rewrite (summarize_text_template self0 (rag.acc_self acc)) by done.
  destruct (py.contains _ _); split; acc_fields; rag_fields; done.
Qed.

Lemma batch_fold_summaries self0 texts_in : forall acc,
  rag.summarize_prompt_template (rag.acc_self acc)
  = rag.summarize_prompt_template self0 ->
  rag.summaries (fold_left rag.batch_step texts_in acc)
  = rag.summaries acc ++ (rag.summarize_text self0 <$> texts_in).
Proof.
  induction texts_in as [|t ts IH]; intros acc Hacc;
    cbn [fold_left fmap list_fmap].
  - by rewrite app_nil_r.
  - destruct (batch_step_summaries self0 acc t Hacc) as [H1 H2].
    by rewrite (IH _ H1), H2, <- app_assoc.
Qed.

(** X14: whatever the store holds, [batch_store] returns one summary per
    input text, in input order: an input whose summary is already stored, or
    occurs earlier in the batch, still gets its summary in the result. *)
Theorem batch_store_returns_summaries (self : rag.RAGManager)
    (texts_in : list string) :
  fst (rag.batch_store self texts_in) = rag.summarize_text self <$> texts_in.
Proof.
  unfold rag.batch_store. destruct texts_in as [|t ts]; [done |].
  pose proof (batch_fold_summaries self (t :: ts)
                {| rag.acc_self := self; rag.summaries := [];
                   rag.new_vectors := []; rag.new_summaries := [] |} eq_refl)
    as Hsum.
  set (acc := fold_left rag.batch_step (t :: ts) _) in *.
  destruct (rag.use_faiss (rag.acc_self acc)), (rag.index (rag.acc_self acc)),
    (rag.new_vectors acc); exact Hsum.
Qed.

End BatchStore.

Lemma store_keeps_consistency_witness :
  (forall text,
     store_consistent (embedding_model := doubles.length_embedding)
       (snd (rag.store_text (model := llm_interface.DummyLLM)
               (embedding_model := doubles.length_embedding)
               (faiss_lib := faiss.IndexFlatL2)
               (rag.RAGManager_init true doubles.template) text))) /\
  (forall texts_in,
     store_consistent (embedding_model := doubles.length_embedding)
       (snd (rag.batch_store (model := llm_interface.DummyLLM)
               (embedding_model := doubles.length_embedding)
               (faiss_lib := faiss.IndexFlatL2)
               (rag.RAGManager_init true doubles.template) texts_in))).
Proof.
  apply (store_keeps_consistency (model := llm_interface.DummyLLM)
           (embedding_model := doubles.length_embedding)
           (faiss_lib := faiss.IndexFlatL2)
           (rag.RAGManager_init true doubles.template)).
  split; reflexivity.
Defined.

Lemma getitem_elem_of {A} (l : list A) i x : py.getitem l i = Ok x -> x ∈ l.
Proof.
  unfold py.getitem. destruct (_ <? 0)%Z; [done |].
  destruct (l !! _) eqn:E; [| done]. intros [= <-]. by eapply list_elem_of_lookup_2.
Qed.

Lemma faiss_results_stored texts indices : forall results,
  rag.faiss_results texts indices = Ok results -> Forall (fun r => r ∈ texts) results.
Proof.
  induction indices as [|idx rest IH]; intros results; cbn [rag.faiss_results].
  - intros [= <-]. constructor.
  - destruct (idx <? py.len texts)%Z; [| apply IH].
    destruct (py.getitem texts idx) as [summary|] eqn:Hget; [| done]. cbn [mbind result_bind].
    destruct (rag.faiss_results texts rest) as [rs|]; [| done]. cbn [mbind result_bind].
    intros [= <-]. specialize (IH rs eq_refl).
    destruct (py.contains summary texts); [| done].
    constructor; [by eapply getitem_elem_of | done].
Qed.

Lemma positive_results_stored texts sims idxs : forall results,
  rag.positive_results texts sims idxs = Ok results -> Forall (fun r => r ∈ texts) results.
Proof.
  induction idxs as [|i rest IH]; intros results; cbn [rag.positive_results].
  - intros [= <-]. constructor.
  - destruct (py.getitem sims i) as [s|]; [| done]. cbn [mbind result_bind].
    destruct (Qlt_le_dec 0 s); [| apply IH].
    destruct (py.getitem texts i) as [t|] eqn:Hget; [| done]. cbn [mbind result_bind].
    destruct (rag.positive_results texts sims rest) as [rs|]; [| done]. cbn [mbind result_bind].
    intros [= <-]. constructor; [by eapply getitem_elem_of | by apply IH].
Qed.

Section RetrievedSummaries.
Context {embedding_model : SentenceTransformer} {faiss_lib : Faiss} {numeric : Numeric}.

(** X15: [retrieve] hands out stored summaries only: every element of a
    result is an element of the summary list of the store. *)
Theorem retrieve_returns_stored_summaries (self : rag.RAGManager) (query : string)
    (top_k : Z) (results : list string) :
  rag.retrieve self query top_k = Ok results ->
  Forall (fun r => r ∈ rag.texts self) results.
Proof.
  unfold rag.retrieve.
  case_bool_decide; [intros [= <-]; constructor |].
  case_bool_decide; [intros [= <-]; constructor |].
  assert (forall rs,
     (similarities ← cosine_similarity_to (SentenceTransformer_encode query) (rag.embeddings self);
      rag.positive_results (rag.texts self) similarities
        (py.slice (rev (argsort similarities)) 0 top_k)) = Ok rs ->
     Forall (fun r => r ∈ rag.texts self) rs) as Hfallback.
  { intros rs. destruct (cosine_similarity_to _ _) as [sims|]; [| done].
    cbn [mbind result_bind]. apply positive_results_stored. }
  destruct (rag.use_faiss self); [| apply Hfallback].
  destruct (rag.index self) as [ix|]; [| apply Hfallback].
  unfold try_except.
  destruct (IndexFlatL2_search _ _ _) as [[distances indices]|]; cbn [mbind result_bind].
  - destruct (rag.faiss_results _ _) as [rs|] eqn:Hres.
    + intros [= <-]. by eapply faiss_results_stored.
    + apply Hfallback.
  - apply Hfallback.
Qed.
End RetrievedSummaries.

Lemma retrieve_returns_stored_summaries_witness :
  exists results,
    rag.retrieve (embedding_model := doubles.length_embedding)
      (faiss_lib := faiss.IndexFlatL2) (numeric := doubles.line_numeric)
      doubles.one_text_store "hello" 3 = Ok results /\
    Forall (fun r => r ∈ rag.texts doubles.one_text_store) results.
Proof.
  eexists. split; [vm_compute; reflexivity |].
  apply (retrieve_returns_stored_summaries
           (embedding_model := doubles.length_embedding)
           (faiss_lib := faiss.IndexFlatL2) (numeric := doubles.line_numeric)
           doubles.one_text_store "hello" 3).
  vm_compute. reflexivity.
Defined.

Section Dedup.
Context {model : LLMInterface} {embedding_model : SentenceTransformer} {faiss_lib : Faiss}.

Lemma index_add_logged_texts (self : rag.RAGManager) ix vs :
  rag.texts (rag.index_add_logged self ix vs) = rag.texts self /\
  rag.summarize_prompt_template (rag.index_add_logged self ix vs)
  = rag.summarize_prompt_template self.
Proof. unfold rag.index_add_logged. by destruct (IndexFlatL2_add ix vs). Qed.

Lemma store_text_stored (self : rag.RAGManager) text :
  rag.summarize_text self text ∈ rag.texts (snd (rag.store_text self text)) /\
  rag.summarize_prompt_template (snd (rag.store_text self text))
  = rag.summarize_prompt_template self.
Proof.
  unfold rag.store_text.
  destruct (py.contains _ (rag.texts self)) eqn:Hin.
  - split; [| done]. by apply contains_elem_of.
  - rag_fields. destruct (rag.use_faiss self); [destruct (rag.index self) |]; rag_fields.
    + destruct (index_add_logged_texts
        (rag.set_texts
           (rag.set_embeddings (rag.set_texts self (rag.texts self ++ [rag.summarize_text self text]))
              (rag.embeddings self ++ [SentenceTransformer_encode (rag.summarize_text self text)]))
           ((rag.texts self ++ [rag.summarize_text self text]) ++ [rag.summarize_text self text]))
        l [SentenceTransformer_encode (rag.summarize_text self text)]) as [-> ->].
      rag_fields. split; [| done]. apply elem_of_app. right. by left.
    + split; [| done]. apply elem_of_app. right. by left.
    + split; [| done]. apply elem_of_app. right. by left.
Qed.

(** X16: the store is keyed by summary, not by text: storing a second text
    that the model summarizes like the first changes nothing and returns the
    same summary. *)
Theorem store_text_same_summary_once (self : rag.RAGManager) (text text' : string) :
  rag.summarize_text self text' = rag.summarize_text self text ->
  rag.store_text (snd (rag.store_text self text)) text'
  = (rag.summarize_text self text, snd (rag.store_text self text)).
Proof.
  intros Hsame. destruct (store_text_stored self text) as [Hin Ht].
  rewrite store_text_duplicate.
  - by rewrite (summarize_text_template self), Hsame.
  - apply contains_elem_of. by rewrite (summarize_text_template self), Hsame.
Qed.
End Dedup.

Lemma store_text_same_summary_once_witness :
  rag.store_text (model := llm_interface.DummyLLM)
    (embedding_model := doubles.length_embedding)
    (faiss_lib := faiss.IndexFlatL2)
    (snd (rag.store_text (model := llm_interface.DummyLLM)
            (embedding_model := doubles.length_embedding)
            (faiss_lib := faiss.IndexFlatL2)
            (rag.RAGManager_init true doubles.template)
            "the quick brown fox jumps over"))
    "the quick brown fox leaps over"
  = (rag.summarize_text (model := llm_interface.DummyLLM)
       (rag.RAGManager_init true doubles.template)
       "the quick brown fox jumps over",
     snd (rag.store_text (model := llm_interface.DummyLLM)
            (embedding_model := doubles.length_embedding)
            (faiss_lib := faiss.IndexFlatL2)
            (rag.RAGManager_init true doubles.template)
            "the quick brown fox jumps over")).
Proof.
  apply (store_text_same_summary_once (model := llm_interface.DummyLLM)
           (embedding_model := doubles.length_embedding)
           (faiss_lib := faiss.IndexFlatL2)
           (rag.RAGManager_init true doubles.template)
           "the quick brown fox jumps over" "the quick brown fox leaps over").
  vm_compute. reflexivity.
Defined.

Section TwoStores.
Context {model : LLMInterface} {embedding_model : SentenceTransformer} {numeric : Numeric}.

Lemma store_text_new_flat (self : rag.RAGManager) ix text :
  rag.use_faiss self = true -> rag.index self = Some ix ->
  py.contains (rag.summarize_text self text) (rag.texts self) = false ->
  rag.store_text (faiss_lib := faiss.IndexFlatL2) self text
  = (rag.summarize_text self text,
     rag.set_index
       (rag.set_texts
          (rag.set_embeddings self
             (rag.embeddings self ++ [SentenceTransformer_encode (rag.summarize_text self text)]))
          (rag.texts self ++ [rag.summarize_text self text; rag.summarize_text self text]))
       (ix ++ [SentenceTransformer_encode (rag.summarize_text self text)])).
Proof.
  intros Hf Hix Hnew. unfold rag.store_text. rewrite Hnew. rag_fields. rewrite Hf, Hix.
  unfold rag.index_add_logged. cbn. by rewrite <- app_assoc.
Qed.

Lemma Qle_bool_false a b : (b < a)%Q -> Qle_bool a b = false.
Proof.
  intros Hlt. destruct (Qle_bool a b) eqn:E; [| done].
  apply Qle_bool_iff in E. by apply Qlt_not_le in Hlt.
Qed.

Lemma search_two_nearest_second (q ea eb : Vec) :
  (faiss.l2_sqr q eb < faiss.l2_sqr q ea)%Q ->
  faiss.search [ea; eb] q 1 = Ok ([faiss.l2_sqr q eb], [1%Z]).
Proof.
  intros Hnear. unfold faiss.search, faiss.ranked.
  cbv -[faiss.l2_sqr Qle_bool]. rewrite (Qle_bool_false _ _ Hnear). reflexivity.
Qed.

(** X17: after two texts with different summaries have been stored in a new
    store with the flat index, the index holds one vector per summary while
    the summary list holds each summary twice, so the positions no longer
    match: a query whose nearest vector is the second summary's gets the
    first summary from [retrieve]. *)
Theorem retrieve_after_two_stores_misaligned (template : string * string)
    (a b query : string) :
  let fresh := rag.RAGManager_init true template in
  let sa := rag.summarize_text fresh a in
  let sb := rag.summarize_text fresh b in
  let store :=
    snd (rag.store_text (faiss_lib := faiss.IndexFlatL2)
           (snd (rag.store_text (faiss_lib := faiss.IndexFlatL2) fresh a)) b) in
  sa <> sb ->
  (faiss.l2_sqr (SentenceTransformer_encode query) (SentenceTransformer_encode sb)
   < faiss.l2_sqr (SentenceTransformer_encode query) (SentenceTransformer_encode sa))%Q ->
  rag.index store = Some [SentenceTransformer_encode sa; SentenceTransformer_encode sb] /\
  rag.retrieve (faiss_lib := faiss.IndexFlatL2) store query 1 = Ok [sa].
Proof.
  intros fresh sa sb store Hne Hnear.
  assert (store = rag.set_index
       (rag.set_texts
          (rag.set_embeddings fresh [SentenceTransformer_encode sa; SentenceTransformer_encode sb])
          [sa; sa; sb; sb])
       [SentenceTransformer_encode sa; SentenceTransformer_encode sb]) as ->.
  { unfold store. rewrite (store_text_new_flat fresh []) by done.
    cbn [snd]. erewrite store_text_new_flat; [| reflexivity | reflexivity |].
    - reflexivity.
    - change (py.contains sb [sa; sa] = false). cbn.
      by rewrite !bool_decide_eq_false_2 by done. }
  split; [reflexivity |].
  unfold rag.retrieve. rag_fields.
  cbn [rag.RAGManager_init rag.use_faiss rag.index rag.texts rag.embeddings].
  rewrite !bool_decide_eq_false_2 by done.
  change (Z.min 1 (py.len [sa; sa; sb; sb])) with 1%Z.
  change (IndexFlatL2_search (Faiss := faiss.IndexFlatL2)) with faiss.search.
  rewrite (search_two_nearest_second _ _ _ Hnear).
  change (rag.use_faiss fresh) with true.
  cbv -[py.contains sa sb]. by rewrite contains_head.
Qed.
End TwoStores.

Lemma retrieve_after_two_stores_misaligned_witness :
  rag.index
    (snd (rag.store_text (model := llm_interface.DummyLLM)
            (embedding_model := doubles.length_embedding)
            (faiss_lib := faiss.IndexFlatL2)
            (snd (rag.store_text (model := llm_interface.DummyLLM)
                    (embedding_model := doubles.length_embedding)
                    (faiss_lib := faiss.IndexFlatL2)
                    (rag.RAGManager_init true doubles.template) "hello world"))
            "the quick brown fox jumps over"))
  = Some [[inject_Z 46]; [inject_Z 54]] /\
  rag.retrieve (embedding_model := doubles.length_embedding)
    (faiss_lib := faiss.IndexFlatL2) (numeric := doubles.line_numeric)
    (snd (rag.store_text (model := llm_interface.DummyLLM)
            (embedding_model := doubles.length_embedding)
            (faiss_lib := faiss.IndexFlatL2)
            (snd (rag.store_text (model := llm_interface.DummyLLM)
                    (embedding_model := doubles.length_embedding)
                    (faiss_lib := faiss.IndexFlatL2)
                    (rag.RAGManager_init true doubles.template) "hello world"))
            "the quick brown fox jumps over"))
    "a question that is as long as the second summary, or so" 1
  = Ok ["[Dummy Response to: Summarize: hello world...]"].
Proof.
  apply (retrieve_after_two_stores_misaligned
           (model := llm_interface.DummyLLM)
           (embedding_model := doubles.length_embedding)
           (numeric := doubles.line_numeric)
           doubles.template "hello world" "the quick brown fox jumps over"
           "a question that is as long as the second summary, or so").
  - vm_compute. discriminate.
  - vm_compute. reflexivity.
Defined.

(** ** Threshold search *)

Lemma slice_sublist {A} (l : list A) (i j : Z) : py.slice l i j `sublist_of` l.
Proof.
  unfold py.slice. etrans; [apply sublist_take | apply sublist_drop].
Qed.

Lemma slice_length_le {A} (l : list A) (j : Z) :
  (0 <= j)%Z -> (py.len (py.slice l 0 j) <= j)%Z.
Proof.
  intros Hj. unfold py.slice, py.slice_bound, py.len. cbn [Z.ltb Z.compare].
  destruct (j <? 0)%Z eqn:E; [apply Z.ltb_lt in E; lia |].
  rewrite length_take. lia.
Qed.

Section ThresholdSearch.
Context {embedding_model : SentenceTransformer} {faiss_lib : Faiss}
  {numeric : Numeric} {linalg : NumpyLinalg}.

Lemma search_hits_threshold (self : rag.RAGManager) (hits : list (Q * Z)) :
  forall results,
    rag.search_hits self hits = Ok results ->
    Forall (fun t =>
              exists distance idx,
                (distance, idx) ∈ hits /\
                py.getitem (rag.texts self) idx = Ok t /\
                (rag.similarity_threshold self <= 1 / (1 + distance))%Q)
           results.
Proof.
  induction hits as [|[distance idx] hits IH]; intros results; cbn.
  - intros [= <-]. constructor.
  - assert (forall results,
              rag.search_hits self hits = Ok results ->
              Forall (fun t =>
                exists d i, (d, i) ∈ (distance, idx) :: hits /\
                  py.getitem (rag.texts self) i = Ok t /\
                  (rag.similarity_threshold self <= 1 / (1 + d))%Q) results)
      as IH'.
    { intros rs Hrs. eapply Forall_impl; [by apply IH |].
      intros t (d & i & Hin & Ht & Hd). exists d, i. split; [by right | done]. }
    destruct (idx <? py.len (rag.texts self))%Z; [| apply IH'].
    destruct (Qle_bool _ _) eqn:Hthr; [| apply IH'].
    destruct (py.getitem (rag.texts self) idx) as [t|e] eqn:Ht; cbn; [| done].
    destruct (rag.search_hits self hits) as [rs|e]; cbn; [| done].
    intros [= <-]. constructor; [| by apply IH'].
    exists distance, idx. split; [left |]. split; [done |].
    by apply Qle_bool_iff.
Qed.

(** X18: with the index in use, [search] applies the similarity threshold
    that [retrieve] ignores: every text it returns is the one stored at the
    position of a hit of the index whose similarity [1 / (1 + distance)]
    reaches [similarity_threshold], and for [top_k >= 0] it returns at most
    [top_k] texts. *)
Theorem search_applies_threshold (self : rag.RAGManager) (query : string)
    (top_k : Z) ix distances indices results :
  rag.use_faiss self = true ->
  rag.index self = Some ix ->
  IndexFlatL2_search ix (SentenceTransformer_encode query)
    (Z.min top_k (py.len (rag.texts self))) = Ok (distances, indices) ->
  rag.search self query top_k = Ok results ->
  Forall (fun t =>
            exists j distance idx,
              distances !! j = Some distance /\ indices !! j = Some idx /\
              py.getitem (rag.texts self) idx = Ok t /\
              (rag.similarity_threshold self <= 1 / (1 + distance))%Q)
         results /\
  ((0 <= top_k)%Z -> (py.len results <= top_k)%Z).
Proof.
  intros Hf Hix Hsearch. unfold rag.search. rewrite Hf, Hix, Hsearch.
  cbn [mbind result_bind].
  destruct (rag.search_hits self (zip distances indices)) as [hits|e] eqn:Hhits;
    cbn [mbind result_bind]; [| done].
  intros [= <-]. split; [| intros Hk; by apply slice_length_le].
  apply search_hits_threshold in Hhits.
  rewrite Forall_forall in Hhits. apply Forall_forall. intros t Ht.
  destruct (Hhits t) as (distance & idx & Hin & Hget & Hthr).
  { eapply elem_of_sublist; [exact Ht | apply slice_sublist]. }
  apply elem_of_lookup_zip_with in Hin as (j & d & i & [= -> ->] & Hd & Hi).
  by exists j, d, i.
Qed.
End ThresholdSearch.

Lemma search_applies_threshold_witness :
  Forall (fun t =>
            exists j distance idx,
              [0%Q; faiss.FLT_MAX] !! j = Some distance /\
              [0%Z; (-1)%Z] !! j = Some idx /\
              py.getitem (rag.texts doubles.one_text_store) idx = Ok t /\
              (rag.similarity_threshold doubles.one_text_store
               <= 1 / (1 + distance))%Q)
         ["[Dummy Response to: Summarize: hello world...]"] /\
  ((0 <= 3)%Z ->
   (py.len ["[Dummy Response to: Summarize: hello world...]"] <= 3)%Z).
Proof.
  apply (search_applies_threshold
           (embedding_model := doubles.length_embedding)
           (faiss_lib := faiss.IndexFlatL2) (numeric := doubles.line_numeric)
           (linalg := doubles.line_linalg)
           doubles.one_text_store
           "a question of forty-six characters, no more..." 3 [[inject_Z 46]]);
    vm_compute; reflexivity.
Defined.

(** ** The character tokenizer *)

(** ** The tokenizer *)

Lemma string_of_chars s : string_of_list_ascii (py.chars s) = s.
Proof. induction s as [|c s IH]; cbn; [done | by rewrite IH]. Qed.

Lemma chars_of_string l : py.chars (string_of_list_ascii l) = l.
Proof. induction l as [|c l IH]; cbn; [done | by rewrite IH]. Qed.

Lemma chars_length s : length (py.chars s) = String.length s.
Proof. induction s as [|c s IH]; cbn; [done | by rewrite IH]. Qed.

Lemma string_of_take n s :
  string_of_list_ascii (take n (py.chars s)) = py.str_take n s.
Proof.
  revert s. induction n as [|n IH]; intros [|c s]; cbn; try done. by rewrite IH.
Qed.

Lemma str_take_length n s : String.length (py.str_take n s) = n `min` String.length s.
Proof.
  revert s. induction n as [|n IH]; intros [|c s]; cbn; try done. by rewrite IH.
Qed.

Lemma count_tokens_simple text :
  engine.count_tokens (tokenizer := llm_interface.SimpleTokenizer) text
  = Z.of_nat (String.length text).
Proof.
  unfold engine.count_tokens. case_bool_decide as E; [by subst |].
  cbn. unfold py.len. by rewrite chars_length.
Qed.

(** X19: [SimpleTokenizer] round-trips: decoding the tokens of a text gives
    the text back, encoding a decoded token list gives the tokens back, and
    the token count of a text is its length. *)
Theorem simple_tokenizer_round_trip (text : string) (tokens : list ascii) :
  decode (Tokenizer := llm_interface.SimpleTokenizer)
    (encode (Tokenizer := llm_interface.SimpleTokenizer) text None false) = text /\
  encode (Tokenizer := llm_interface.SimpleTokenizer)
    (decode (Tokenizer := llm_interface.SimpleTokenizer) tokens) None false = tokens /\
  engine.count_tokens (tokenizer := llm_interface.SimpleTokenizer) text
  = Z.of_nat (String.length text).
Proof.
  split; [apply string_of_chars |]. split; [apply chars_of_string |].
  apply count_tokens_simple.
Qed.

(** X20: truncating with [SimpleTokenizer] keeps the first [max_length]
    characters, except that [max_length = 0] switches the truncation off
    and keeps the whole text; for a positive [max_length] the result is
    within the limit. *)
Theorem simple_tokenizer_truncation (text : string) (max_length : Z) :
  (0 <= max_length)%Z ->
  let truncated :=
    decode (Tokenizer := llm_interface.SimpleTokenizer)
      (encode (Tokenizer := llm_interface.SimpleTokenizer) text
         (Some max_length) true) in
  truncated
  = (if (max_length =? 0)%Z then text
     else py.str_take (Z.to_nat max_length) text) /\
  ((0 < max_length)%Z ->
   (engine.count_tokens (tokenizer := llm_interface.SimpleTokenizer) truncated
    <= max_length)%Z).
Proof.
  intros Hm truncated.
  assert (truncated = if (max_length =? 0)%Z then text
                      else py.str_take (Z.to_nat max_length) text) as Heq.
  { unfold truncated. cbn [decode encode llm_interface.SimpleTokenizer].
    destruct (max_length =? 0)%Z eqn:E0; cbn [negb andb]; [apply string_of_chars |].
    apply Z.eqb_neq in E0.
    destruct (max_length <? py.len (py.chars text))%Z eqn:Elt.
    - apply Z.ltb_lt in Elt. unfold py.slice, py.slice_bound.
      destruct (max_length <? 0)%Z eqn:E1; [apply Z.ltb_lt in E1; lia |].
      cbn [Z.ltb Z.compare]. rewrite Z.min_l by lia. rewrite Z.min_l by lia.
      rewrite Z.sub_0_r. cbn [Z.to_nat drop]. apply string_of_take.
    - apply Z.ltb_ge in Elt. rewrite string_of_chars.
      unfold py.len in Elt. rewrite chars_length in Elt.
      rewrite <- string_of_take, firstn_all2 by (rewrite chars_length; lia).
      symmetry. apply string_of_chars. }
  split; [done |]. intros Hpos. rewrite Heq.
  destruct (max_length =? 0)%Z eqn:E0; [apply Z.eqb_eq in E0; lia |].
  rewrite count_tokens_simple, str_take_length. lia.
Qed.

Lemma simple_tokenizer_truncation_witness :
  decode (Tokenizer := llm_interface.SimpleTokenizer)
    (encode (Tokenizer := llm_interface.SimpleTokenizer) "hello world"
       (Some 5%Z) true) = "hello" /\
  ((0 < 5)%Z ->
   (engine.count_tokens (tokenizer := llm_interface.SimpleTokenizer)
      (decode (Tokenizer := llm_interface.SimpleTokenizer)
         (encode (Tokenizer := llm_interface.SimpleTokenizer) "hello world"
            (Some 5%Z) true)) <= 5)%Z).
Proof.
  apply (simple_tokenizer_truncation "hello world" 5). lia.
Defined.

(** ** The session *)

Section SessionInput.
Context {tokenizer : Tokenizer} {model : LLMInterface}
  {embedding_model : SentenceTransformer} {faiss_lib : Faiss}
  {vectorizer : TfidfVectorizer}.

(** X21: [_prepare_llm_input] returns a string exactly when the prompt is
    within [max_prompt_tokens], and then the prompt itself: it never returns
    a compressed prompt. *)
Theorem prepare_llm_input_only_passes (fuel : nat) (self : engine.Session)
    (prompt s : string) :
  engine._prepare_llm_input fuel self prompt = Some (Ok s) <->
  s = prompt /\
  (engine.count_tokens prompt <= engine.max_prompt_tokens self)%Z.
Proof.
  unfold engine._prepare_llm_input.
  destruct (engine.count_tokens prompt <=? engine.max_prompt_tokens self)%Z eqn:Hle.
  - apply Z.leb_le in Hle. split; [by intros [= <-] | by intros [-> _]].
  - apply Z.leb_gt in Hle. split.
    + intros Hrun. by apply compress_over_budget_no_string in Hrun.
    + lia.
Qed.

(** X22: with a positive chunk overlap (the default), [ingest] does not
    complete on a text that has a word, whatever the fuel. *)
Theorem ingest_never_completes (self : engine.Session) (text : string) :
  (0 < processor.overlap_size (engine.processor (engine.core self)))%Z ->
  py.split text <> [] ->
  forall fuel, engine.ingest fuel self text = None.
Proof.
  intros Hov Hne fuel. unfold engine.ingest, engine._prepare_llm_input.
  destruct (engine.count_tokens text <=? engine.max_prompt_tokens self)%Z eqn:Hle.
  - by rewrite split_into_batches_stalls.
  - apply Z.leb_gt in Hle. by rewrite compress_stalls.
Qed.

(** X23: on a text without words that is within the prompt budget, [ingest]
    stores nothing and appends a system message with empty content to the
    history. *)
Theorem ingest_blank_text (self : engine.Session) (text : string) (fuel : nat) :
  py.split text = [] ->
  (engine.count_tokens text <= engine.max_prompt_tokens self)%Z ->
  engine.ingest (S fuel) self text
  = Some (Ok {| engine.core := engine.core self;
                engine.max_prompt_tokens := engine.max_prompt_tokens self;
                engine.rag_manager := engine.rag_manager self;
                engine.conversation_history :=
                  engine.conversation_history self ++
                  [{| engine.role := "system"; engine.content := EmptyString |}] |}).
Proof.
  intros Hblank Hfit. unfold engine.ingest, engine._prepare_llm_input.
  rewrite (proj2 (Z.leb_le _ _) Hfit).
  unfold processor.split_into_batches. rewrite Hblank. reflexivity.
Qed.
End SessionInput.

Lemma prepare_llm_input_only_passes_witness :
  engine._prepare_llm_input (tokenizer := llm_interface.SimpleTokenizer)
    (model := llm_interface.DummyLLM)
    (embedding_model := doubles.length_embedding)
    (faiss_lib := faiss.IndexFlatL2)
    (vectorizer := doubles.exact_match_vectorizer)
    0 doubles.default_session "hello" = Some (Ok "hello").
Proof.
  apply (prepare_llm_input_only_passes
           (tokenizer := llm_interface.SimpleTokenizer)
           (model := llm_interface.DummyLLM)
           (embedding_model := doubles.length_embedding)
           (faiss_lib := faiss.IndexFlatL2)
           (vectorizer := doubles.exact_match_vectorizer)
           0 doubles.default_session "hello" "hello").
  split; [reflexivity | vm_compute; discriminate].
Defined.

Lemma ingest_never_completes_witness :
  engine.ingest (tokenizer := llm_interface.SimpleTokenizer)
    (model := llm_interface.DummyLLM)
    (embedding_model := doubles.length_embedding)
    (faiss_lib := faiss.IndexFlatL2)
    (vectorizer := doubles.exact_match_vectorizer)
    1000 doubles.default_session "hello world" = None.
Proof.
  apply (ingest_never_completes
           (tokenizer := llm_interface.SimpleTokenizer)
           (model := llm_interface.DummyLLM)
           (embedding_model := doubles.length_embedding)
           (faiss_lib := faiss.IndexFlatL2)
           (vectorizer := doubles.exact_match_vectorizer)
           doubles.default_session "hello world");
    [reflexivity | vm_compute; discriminate].
Defined.

Lemma ingest_blank_text_witness :
  engine.ingest (tokenizer := llm_interface.SimpleTokenizer)
    (model := llm_interface.DummyLLM)
    (embedding_model := doubles.length_embedding)
    (faiss_lib := faiss.IndexFlatL2)
    (vectorizer := doubles.exact_match_vectorizer)
    1 doubles.default_session "  "
  = Some (Ok {| engine.core := doubles.default_engine;
                engine.max_prompt_tokens := 1638;
                engine.rag_manager := rag.RAGManager_init true doubles.template;
                engine.conversation_history :=
                  [{| engine.role := "system";
                      engine.content := EmptyString |}] |}).
Proof.
  apply (ingest_blank_text
           (tokenizer := llm_interface.SimpleTokenizer)
           (model := llm_interface.DummyLLM)
           (embedding_model := doubles.length_embedding)
           (faiss_lib := faiss.IndexFlatL2)
           (vectorizer := doubles.exact_match_vectorizer)
           doubles.default_session "  " 0);
    [reflexivity | vm_compute; discriminate].
Defined.

Section RecentContext.
Context {tokenizer : Tokenizer}.

Lemma tokens_of_app a b : tokens_of (a ++ b) = (tokens_of a + tokens_of b)%Z.
Proof.
  unfold tokens_of. rewrite fmap_app, foldr_app.
  induction a as [|x a IH]; cbn; [lia |]. rewrite IH. lia.
Qed.

Lemma fmap_rev_list {A B} (f : A -> B) (l : list A) : f <$> rev l = rev (f <$> l).
Proof.
  induction l as [|x l IH]; [done |]. cbn [rev fmap list_fmap].
  rewrite fmap_app. cbn [rev fmap list_fmap]. by rewrite <- IH.
Qed.

Lemma last_rev_head {A} (l : list A) : last (rev l) = head l.
Proof. destruct l as [|x l]; [done |]. cbn [rev head]. apply last_snoc. Qed.

Lemma tokens_of_rev l : tokens_of (rev l) = tokens_of l.
Proof.
  induction l as [|x l IH]; [done |].
  cbn [rev]. rewrite tokens_of_app, IH. unfold tokens_of. cbn. lia.
Qed.

Lemma recent_loop_taken (max_tokens : Z) (messages : list engine.Message) :
  forall taken : list engine.Message,
    taken <> [] ->
    exists k,
      engine.recent_loop messages max_tokens (engine.msg_text <$> taken) (tokens_of taken)
      = engine.msg_text <$> (taken ++ take k messages) /\
      ((tokens_of taken <= max_tokens)%Z ->
       (tokens_of (taken ++ take k messages) <= max_tokens)%Z) /\
      (forall m, messages !! k = Some m ->
         (max_tokens < tokens_of (taken ++ take k messages)
                       + engine.count_tokens (engine.msg_text m))%Z).
Proof.
  induction messages as [|m messages IH]; intros taken Hne.
  - exists 0. cbn. rewrite app_nil_r. split; [done |]. split; [done |]. intros ? [=].
  - cbn [engine.recent_loop].
    destruct (max_tokens <? tokens_of taken + engine.count_tokens (engine.msg_text m))%Z eqn:Hlt.
    + exists 0. cbn [take]. rewrite app_nil_r. apply Z.ltb_lt in Hlt.
      split; [| split; [done |]].
      * destruct taken; [done | reflexivity].
      * intros m' [= <-]. done.
    + apply Z.ltb_ge in Hlt.
      destruct (IH (taken ++ [m])) as (k & Hrun & Hfit & Hnext).
      { by destruct taken. }
      exists (S k). cbn [take]. rewrite tokens_of_app in Hrun.
      replace (tokens_of [m]) with (engine.count_tokens (engine.msg_text m))
        in Hrun by (unfold tokens_of; cbn; lia).
      rewrite fmap_app in Hrun. cbn [fmap list_fmap] in Hrun.
      rewrite <- app_assoc in Hrun, Hfit, Hnext. cbn [app] in Hrun, Hfit, Hnext.
      split; [exact Hrun |]. split.
      * intros _. apply Hfit. rewrite tokens_of_app. unfold tokens_of at 2. cbn. lia.
      * exact Hnext.
Qed.

(** X24: on a non-empty history [_get_recent_context] always includes the
    newest message. If that message alone exceeds [max_tokens], the context
    is that message as truncated by the tokenizer; otherwise it is the
    longest run of newest messages whose token counts add up to at most
    [max_tokens], joined in chronological order. *)
Theorem get_recent_context_budget (self : engine.Session) (max_tokens : Z)
    (older : list engine.Message) (newest : engine.Message) :
  engine.conversation_history self = older ++ [newest] ->
  if (max_tokens <? engine.count_tokens (engine.msg_text newest))%Z
  then
    engine._get_recent_context self max_tokens
    = decode (encode (engine.msg_text newest) (Some max_tokens) true)
  else
    exists dropped kept,
      older ++ [newest] = dropped ++ kept /\
      kept <> [] /\
      engine._get_recent_context self max_tokens
      = py.join (engine.newline +:+ engine.newline) (engine.msg_text <$> kept) /\
      (tokens_of kept <= max_tokens)%Z /\
      (forall m, last dropped = Some m ->
         (max_tokens < tokens_of kept + engine.count_tokens (engine.msg_text m))%Z).
Proof.
  intros Hh. unfold engine._get_recent_context. rewrite Hh, rev_app_distr.
  cbn [rev app engine.recent_loop]. rewrite Z.add_0_l.
  destruct (max_tokens <? engine.count_tokens (engine.msg_text newest))%Z
    eqn:Hfit; [reflexivity |].
  apply Z.ltb_ge in Hfit.
  destruct (recent_loop_taken max_tokens (rev older) [newest])
    as (k & Hrun & Hbud & Hnext); [done |].
  assert (tokens_of [newest] = engine.count_tokens (engine.msg_text newest))
    as Hone by (unfold tokens_of; cbn; lia).
  rewrite Hone in Hrun. cbn [app] in Hrun.
  change ([engine.msg_text newest]) with (engine.msg_text <$> [newest]).
  rewrite Hrun.
  exists (rev (drop k (rev older))), (rev (take k (rev older)) ++ [newest]).
  split; [| split; [| split; [| split]]].
  + rewrite app_assoc, <- rev_app_distr, take_drop, rev_involutive. done.
  + by destruct (rev (take k (rev older))).
  + f_equal. symmetry. apply (fmap_rev_list _ (newest :: take k (rev older))).
  + specialize (Hbud ltac:(lia)). rewrite !tokens_of_app in *.
    rewrite tokens_of_rev. lia.
  + intros m Hlast. rewrite last_rev_head in Hlast.
    assert (rev older !! k = Some m) as Hk.
    { rewrite head_lookup, lookup_drop, Nat.add_0_r in Hlast. done. }
    specialize (Hnext m Hk). rewrite !tokens_of_app in *.
    rewrite tokens_of_rev. lia.
Qed.

End RecentContext.

Lemma get_recent_context_budget_witness :
  exists dropped kept,
    [{| engine.role := "user"; engine.content := "hi" |};
     {| engine.role := "assistant"; engine.content := "hello" |}]
    = dropped ++ kept /\
    kept <> [] /\
    engine._get_recent_context (tokenizer := llm_interface.SimpleTokenizer)
      {| engine.core := doubles.default_engine;
         engine.max_prompt_tokens := 1638;
         engine.rag_manager := rag.RAGManager_init true doubles.template;
         engine.conversation_history :=
           [{| engine.role := "user"; engine.content := "hi" |};
            {| engine.role := "assistant"; engine.content := "hello" |}] |}
      20
    = py.join (engine.newline +:+ engine.newline) (engine.msg_text <$> kept) /\
    (tokens_of (tokenizer := llm_interface.SimpleTokenizer) kept <= 20)%Z /\
    (forall m, last dropped = Some m ->
       (20 < tokens_of (tokenizer := llm_interface.SimpleTokenizer) kept
             + engine.count_tokens (tokenizer := llm_interface.SimpleTokenizer)
                 (engine.msg_text m))%Z).
Proof.
  apply (get_recent_context_budget (tokenizer := llm_interface.SimpleTokenizer)
           {| engine.core := doubles.default_engine;
              engine.max_prompt_tokens := 1638;
              engine.rag_manager := rag.RAGManager_init true doubles.template;
              engine.conversation_history :=
                [{| engine.role := "user"; engine.content := "hi" |};
                 {| engine.role := "assistant"; engine.content := "hello" |}] |}
           20 [{| engine.role := "user"; engine.content := "hi" |}]
           {| engine.role := "assistant"; engine.content := "hello" |}).
  reflexivity.
Defined.
